(** * gobot-bme280: configuration resolution and validation

    A shallow embedding of [internal/config/config.go].  Go strings are byte strings and are modelled by
    [string]; Go's [int] is modelled by [Z] (the package never computes with
    the interval, it only stores and compares it, so no wrap-around occurs);
    the process environment is a finite map from names to values. *)

From Stdlib Require Import ZArith Strings.String Strings.Ascii Numbers.DecimalString.
From stdpp Require Import base option gmap strings.
From Stdlib Require DecimalPos DecimalZ.

Local Open Scope string_scope.
Local Open Scope Z_scope.

(** ** Errors *)

Inductive NumErrKind := ErrSyntax | ErrRange.

(** The error values that reach the package: [errors.New] / [fmt.Errorf]
    values, [*strconv.NumError], and whatever the JSON decoder reports. *)
Inductive error :=
| errorString (msg : string)
| NumError (Func Num : string) (Err : NumErrKind)
| JsonError (msg : string).

(** A Go result pair [(T, error)] of which the value is meaningful only when
    the error is nil. *)
Inductive result (A : Type) :=
| Ok (a : A)
| Err (e : error).
Arguments Ok {A} a.
Arguments Err {A} e.

Definition is_Ok {A} (r : result A) : bool :=
  match r with Ok _ => true | Err _ => false end.

(** ** Library functions used by the package *)

Module strings.

Definition upper_byte (c : ascii) : ascii :=
  let n := nat_of_ascii c in
  if (97 <=? n)%nat && (n <=? 122)%nat then ascii_of_nat (n - 32) else c.

Definition lower_byte (c : ascii) : ascii :=
  let n := nat_of_ascii c in
  if (65 <=? n)%nat && (n <=? 90)%nat then ascii_of_nat (n + 32) else c.

(** [strings.ToUpper] on ASCII strings: the letters a-z are mapped to A-Z and
    every other byte is kept.  Go takes this path when every byte of the
    string is below 0x80, which holds for every key the package passes; a
    string with a byte from 0x80 on is mapped rune by rune through the Unicode
    tables instead, which are not modelled here.  What is proved about the
    value of [ToUpper] is therefore stated for [isASCII] strings. *)
Fixpoint ToUpper (s : string) : string :=
  match s with
  | EmptyString => EmptyString
  | String c r => String (upper_byte c) (ToUpper r)
  end.

(** [strings.ToLower] on ASCII strings, in the same way; used only to state
    case-insensitivity. *)
Fixpoint ToLower (s : string) : string :=
  match s with
  | EmptyString => EmptyString
  | String c r => String (lower_byte c) (ToLower r)
  end.

(** Every byte is below [utf8.RuneSelf] (0x80). *)
Fixpoint isASCII (s : string) : bool :=
  match s with
  | EmptyString => true
  | String c r => (nat_of_ascii c <? 128)%nat && isASCII r
  end.

End strings.

Module strconv.

(** Width of Go's [int] on the 64-bit targets. *)
Definition intSize : Z := 64.
Definition minInt : Z := - 2 ^ (intSize - 1).
Definition maxInt : Z := 2 ^ (intSize - 1) - 1.

Definition digit_val (c : ascii) : option Z :=
  let n := nat_of_ascii c in
  if (48 <=? n)%nat && (n <=? 57)%nat then Some (Z.of_nat (n - 48)) else None.

(** Largest [uint64], and the least [n] for which [n * 10] exceeds it. *)
Definition maxUint64 : Z := 2 ^ 64 - 1.
Definition cutoff10 : Z := maxUint64 / 10 + 1.

(** The loop of [strconv.ParseUint] in base 10 on 64 bits: a byte that is no
    digit is a syntax error, a digit that takes the value past [uint64] is a
    range error, whichever comes first. *)
Fixpoint parseUintLoop (s : string) (n : Z) : Z + NumErrKind :=
  match s with
  | EmptyString => inl n
  | String c r =>
      match digit_val c with
      | None => inr ErrSyntax
      | Some d =>
          if cutoff10 <=? n then inr ErrRange
          else
            let n1 := n * 10 + d in
            if maxUint64 <? n1 then inr ErrRange else parseUintLoop r n1
      end
  end.

(** [strconv.Atoi], that is [ParseInt(s, 10, 0)] reported under the name
    [Atoi] (the shortcut it takes for short strings gives the same results):
    an optional sign, then one or more decimal digits, and the value has to
    fit [int]. *)
Definition Atoi (s : string) : result Z :=
  let '(neg, body) :=
    match s with
    | String "-"%char r => (true, r)
    | String "+"%char r => (false, r)
    | _ => (false, s)
    end in
  match body with
  | EmptyString => Err (NumError "Atoi" s ErrSyntax)
  | _ =>
      match parseUintLoop body 0 with
      | inr kind => Err (NumError "Atoi" s kind)
      | inl un =>
          let cutoff := 2 ^ (intSize - 1) in
          if negb neg && (cutoff <=? un) then Err (NumError "Atoi" s ErrRange)
          else if neg && (cutoff <? un) then Err (NumError "Atoi" s ErrRange)
          else Ok (if neg then - un else un)
      end
  end.

Definition true_tokens : list string := ["1"; "t"; "T"; "true"; "TRUE"; "True"].
Definition false_tokens : list string := ["0"; "f"; "F"; "false"; "FALSE"; "False"].

(** [strconv.ParseBool]. *)
Definition ParseBool (str : string) : result bool :=
  if existsb (String.eqb str) true_tokens then Ok true
  else if existsb (String.eqb str) false_tokens then Ok false
  else Err (NumError "ParseBool" str ErrSyntax).

End strconv.

(** [%d] of [fmt]. *)
Definition fmt_d (n : Z) : string := NilZero.string_of_int (Z.to_int n).

(** [os.Getenv]: the value of the variable, empty when it is not set. *)
Definition Getenv (env : gmap string string) (name : string) : string :=
  default "" (env !! name).

(** ** The standard logger *)

(** The last byte of [s], or [prev] when [s] is empty. *)
Fixpoint last_byte (s : string) (prev : option ascii) : option ascii :=
  match s with
  | EmptyString => prev
  | String c r => last_byte r (Some c)
  end.

Definition newline : string := String "010"%char EmptyString.

Definition ends_with_newline (s : string) : bool :=
  match last_byte s None with
  | Some c => Ascii.eqb c "010"%char
  | None => false
  end.

(** What the standard logger writes for a message after its own header: the
    message, followed by a newline when the message is empty or does not end
    in one. *)
Definition log_entry (s : string) : string :=
  if ends_with_newline s then s else s +:+ newline.

(** [log.Println] of one string: [fmt.Sprintln] ends the message with a
    newline. *)
Definition log_Println (s : string) : string := log_entry (s +:+ newline).

(** ** Package [config] *)

Definition BotName : string := "gobot_bme280".
Definition defaultLogSensor : bool := false.
Definition defaultIntervalSeconds : Z := 30.
Definition defaultMetricConfig : string := ":9192".

Definition computeEnvName (name : string) : string :=
  strings.ToUpper BotName +:+ "_" +:+ strings.ToUpper name.

Definition fromEnv (env : gmap string string) (name : string) : result string :=
  let name := computeEnvName name in
  let val := Getenv env name in
  if String.eqb val "" then Err (errorString "not defined") else Ok val.

Definition fromEnvInt (env : gmap string string) (name : string) : result Z :=
  match fromEnv env name with
  | Err err => Err err
  | Ok val =>
      match strconv.Atoi val with
      | Err err => Err err
      | Ok parsed => Ok parsed
      end
  end.

Definition fromEnvBool (env : gmap string string) (name : string) : result bool :=
  match fromEnv env name with
  | Err err => Err err
  | Ok val =>
      match strconv.ParseBool val with
      | Err err => Err err
      | Ok parsed => Ok parsed
      end
  end.

(** The sub-configuration of the MQTT client.  Its declaration is in a file
    of the package that is not part of this development; the fields are the
    ones [ConfigFromEnv] and [main] read and write. *)
Record MqttConfig := {
  Host : string;
  Topic : string;
  ClientKeyFile : string;
  ClientCertFile : string;
  ServerCaFile : string;
}.

(** [Config] embeds [MqttConfig] and [SensorConfig]; the sensor
    sub-configuration is declared elsewhere in the package and stays abstract
    here. *)
Record Config (SensorConfig : Type) := {
  Placement : string;
  MetricConfig : string;
  IntervalSecs : Z;
  LogSensor : bool;
  DisableMqtt : bool;
  Mqtt : MqttConfig;
  Sensor : SensorConfig;
}.
Arguments Placement {SensorConfig} _.
Arguments MetricConfig {SensorConfig} _.
Arguments IntervalSecs {SensorConfig} _.
Arguments LogSensor {SensorConfig} _.
Arguments DisableMqtt {SensorConfig} _.
Arguments Mqtt {SensorConfig} _.
Arguments Sensor {SensorConfig} _.

(** What a JSON document provides for a [Config]: [json.Unmarshal] stores the
    members that are present (and not null) into the matching fields and
    leaves every other field of the destination alone.  The members of the
    embedded sensor struct act on the sensor sub-configuration as a whole. *)
Record JsonFields (SensorConfig : Type) := {
  jPlacement : option string;
  jMetricConfig : option string;
  jIntervalSecs : option Z;
  jLogSensor : option bool;
  jDisableMqtt : option bool;
  jHost : option string;
  jTopic : option string;
  jClientKeyFile : option string;
  jClientCertFile : option string;
  jServerCaFile : option string;
  jSensor : SensorConfig -> SensorConfig;
}.
Arguments jPlacement {SensorConfig} _.
Arguments jMetricConfig {SensorConfig} _.
Arguments jIntervalSecs {SensorConfig} _.
Arguments jLogSensor {SensorConfig} _.
Arguments jDisableMqtt {SensorConfig} _.
Arguments jHost {SensorConfig} _.
Arguments jTopic {SensorConfig} _.
Arguments jClientKeyFile {SensorConfig} _.
Arguments jClientCertFile {SensorConfig} _.
Arguments jServerCaFile {SensorConfig} _.
Arguments jSensor {SensorConfig} _ _.

(** A document that provides no member of the schema, such as [{}]. *)
Definition emptyFields {SensorConfig : Type} : JsonFields SensorConfig :=
  {| jPlacement := None; jMetricConfig := None; jIntervalSecs := None;
     jLogSensor := None; jDisableMqtt := None; jHost := None; jTopic := None;
     jClientKeyFile := None; jClientCertFile := None; jServerCaFile := None;
     jSensor := fun s => s |}.

(** The value a layer leaves in a field: its own when it provides one, the
    prior one otherwise. *)
Definition layer {A} (provided : option A) (prior : A) : A :=
  match provided with
  | Some v => v
  | None => prior
  end.

Definition provided {A} (r : result A) : option A :=
  match r with
  | Ok v => Some v
  | Err _ => None
  end.

(** ** Stand-ins for the parts declared outside [config.go]

    They instantiate the abstract collaborators below on concrete inputs. *)

(** Modelled from the spec: the sensor sub-configuration (the declaration of
    [SensorConfig], its defaults, its environment layer and its validation
    are in a file of the package that is not part of this development).  The
    spec names "bus number, device address" and "bus/address range checks";
    [main] reads the fields [GpioBus] and [GpioAddress]. *)
Record DemoSensor := {
  GpioBus : Z;
  GpioAddress : Z;
}.

(** Modelled from the spec: the default sensor sub-configuration
    ([defaultSensorConfig] is declared outside [config.go]); the values are
    chosen for the examples. *)
Definition demoDefaultSensor : DemoSensor :=
  {| GpioBus := 1; GpioAddress := 118 |}.

(** Modelled from the spec: the environment layer of the sensor
    sub-configuration ([SensorConfig.ConfigFromEnv] is declared outside
    [config.go]), on the pattern of the layer in [config.go]. *)
Definition demoSensorFromEnv (env : gmap string string) (s : DemoSensor) : DemoSensor :=
  {| GpioBus := layer (provided (fromEnvInt env "GPIO_BUS")) (GpioBus s);
     GpioAddress := layer (provided (fromEnvInt env "GPIO_ADDRESS")) (GpioAddress s) |}.

(** Modelled from the spec: "sensor sub-validation (bus/address range
    checks)" ([SensorConfig.Validate] is declared outside [config.go]). *)
Definition demoSensorValidate (s : DemoSensor) : option error :=
  if GpioBus s <? 0 then Some (errorString "invalid gpio bus")
  else if (GpioAddress s <? 0) || (127 <? GpioAddress s)
       then Some (errorString "invalid gpio address")
       else None.

(** Modelled from the spec: validation of the MQTT sub-configuration (rule 6
    of the validator; [MqttConfig.Validate] is in a file of the package that
    is not part of this development): the host is non-empty, a client
    certificate comes with a client key, and a server CA needs both. *)
Definition demoMqttValidate (m : MqttConfig) : option error :=
  if String.eqb (Host m) "" then Some (errorString "empty mqtt host provided")
  else if negb (String.eqb (ClientCertFile m) "") && String.eqb (ClientKeyFile m) ""
       then Some (errorString "client certificate without client key")
  else if negb (String.eqb (ServerCaFile m) "") &&
          (String.eqb (ClientCertFile m) "" || String.eqb (ClientKeyFile m) "")
       then Some (errorString "server ca without client certificate and key")
  else None.

Definition dq : string := String "034"%char EmptyString.

(** [{"placement":"garage","interval_s":60}] *)
Definition garage_json : string :=
  "{" +:+ dq +:+ "placement" +:+ dq +:+ ":" +:+ dq +:+ "garage" +:+ dq +:+ ","
      +:+ dq +:+ "interval_s" +:+ dq +:+ ":60}".

(** [{"placement":"garage","interval_s":"sixty"}] *)
Definition mistyped_json : string :=
  "{" +:+ dq +:+ "placement" +:+ dq +:+ ":" +:+ dq +:+ "garage" +:+ dq +:+ ","
      +:+ dq +:+ "interval_s" +:+ dq +:+ ":" +:+ dq +:+ "sixty" +:+ dq +:+ "}".

(** A file system with three configuration files and the outcome of
    [json.Unmarshal] on each: a well-formed document, a document with a
    member of the wrong type (the members before it are stored and an
    [UnmarshalTypeError] is reported) and a truncated document (nothing is
    stored and a [SyntaxError] is reported). *)
Definition demoReadFile (path : string) : string + string :=
  if String.eqb path "/etc/gobot/garage.json" then inl garage_json
  else if String.eqb path "/etc/gobot/mistyped.json" then inl mistyped_json
  else if String.eqb path "/etc/gobot/truncated.json" then inl "{"
  else inr ("open " +:+ path +:+ ": no such file or directory").

Definition demoDecode (content : string) : JsonFields DemoSensor * option error :=
  if String.eqb content garage_json then
    ({| jPlacement := Some "garage"; jMetricConfig := None; jIntervalSecs := Some 60;
        jLogSensor := None; jDisableMqtt := None; jHost := None; jTopic := None;
        jClientKeyFile := None; jClientCertFile := None; jServerCaFile := None;
        jSensor := fun s => s |}, None)
  else if String.eqb content mistyped_json then
    ({| jPlacement := Some "garage"; jMetricConfig := None; jIntervalSecs := None;
        jLogSensor := None; jDisableMqtt := None; jHost := None; jTopic := None;
        jClientKeyFile := None; jClientCertFile := None; jServerCaFile := None;
        jSensor := fun s => s |},
     Some (JsonError "json: cannot unmarshal string into Go struct field Config.interval_s of type int"))
  else (emptyFields, Some (JsonError "unexpected end of JSON input")).

(** Concrete configurations and environments. *)
Definition demoConf (placement : string) (interval : Z) (disableMqtt : bool)
    (host : string) : Config DemoSensor :=
  {| Placement := placement; MetricConfig := ":9192"; IntervalSecs := interval;
     LogSensor := false; DisableMqtt := disableMqtt;
     Mqtt := {| Host := host; Topic := "sensors/bme280"; ClientKeyFile := "";
                ClientCertFile := ""; ServerCaFile := "" |};
     Sensor := demoDefaultSensor |}.

(** Two recognized variables, of which the second holds no boolean, and one
    variable of another program. *)
Definition demoEnv : gmap string string :=
  {[ "GOBOT_BME280_INTERVAL_S" := "120";
     "GOBOT_BME280_DISABLE_MQTT" := "maybe";
     "HOME" := "/root" ]}.

(** No recognized variable: a variable of another program, and a name that
    the package does not consult. *)
Definition foreignEnv : gmap string string :=
  {[ "HOME" := "/root"; "GOBOT_BME280_SSL_SERVER_CA_FILE" := "/etc/ssl/ca.pem" ]}.

(** An environment that gives a placement and switches MQTT off. *)
Definition atticEnv : gmap string string :=
  {[ "GOBOT_BME280_PLACEMENT" := "attic"; "GOBOT_BME280_DISABLE_MQTT" := "true" ]}.

(** [{"placement":"attic","disable_mqtt":true}] *)
Definition attic_json : string :=
  "{" +:+ dq +:+ "placement" +:+ dq +:+ ":" +:+ dq +:+ "attic" +:+ dq +:+ ","
      +:+ dq +:+ "disable_mqtt" +:+ dq +:+ ":true}".

(** The file system and the decoder above, with one more file. *)
Definition atticReadFile (path : string) : string + string :=
  if String.eqb path "/etc/gobot/attic.json" then inl attic_json
  else demoReadFile path.

Definition atticDecode (content : string) : JsonFields DemoSensor * option error :=
  if String.eqb content attic_json then
    ({| jPlacement := Some "attic"; jMetricConfig := None; jIntervalSecs := None;
        jLogSensor := None; jDisableMqtt := Some true; jHost := None; jTopic := None;
        jClientKeyFile := None; jClientCertFile := None; jServerCaFile := None;
        jSensor := fun s => s |}, None)
  else demoDecode content.

(** Modelled from the spec: the report of the two sub-configurations
    ([SensorConfig.Print] and [MqttConfig.Print] are declared outside
    [config.go]): one line per field. *)
Definition demoSensorPrint (s : DemoSensor) : list string :=
  [log_entry ("GpioBus=" +:+ fmt_d (GpioBus s));
   log_entry ("GpioAddress=" +:+ fmt_d (GpioAddress s))].

Definition demoMqttPrint (m : MqttConfig) : list string :=
  [log_entry ("Host=" +:+ Host m); log_entry ("Topic=" +:+ Topic m)].

(** The keys [ConfigFromEnv] passes to [fromEnv], [fromEnvBool] and
    [fromEnvInt], in the order of its statements. *)
Definition recognized_keys : list string :=
  ["placement"; "LOG_SENSOR"; "INTERVAL_S"; "DISABLE_MQTT"; "MQTT_HOST";
   "MQTT_TOPIC"; "METRICS_ADDR"; "SSL_CLIENT_KEY_FILE"; "SSL_CLIENT_CERT_FILE"].

(** ** The package, over its collaborators *)

Section config.

Context {SensorConfig : Type}.

(** Declared in the package, outside [config.go]. *)
Variable defaultSensorConfig : SensorConfig.
Variable SensorConfig_ConfigFromEnv : gmap string string -> SensorConfig -> SensorConfig.
Variable SensorConfig_Validate : SensorConfig -> option error.
Variable MqttConfig_Validate : MqttConfig -> option error.

(** [os.ReadFile] on the file system of the process: the content of the
    file, or the text of the error. *)
Variable ReadFile : string -> string + string.

(** The JSON decoder: the members a document provides, and the error
    [json.Unmarshal] reports for it, if any. *)
Variable Decode : string -> JsonFields SensorConfig * option error.

Local Abbreviation Config := (Config SensorConfig).
Local Abbreviation JsonFields := (JsonFields SensorConfig).

Definition DefaultConfig : Config :=
  {| Placement := "";
     MetricConfig := defaultMetricConfig;
     IntervalSecs := defaultIntervalSeconds;
     LogSensor := defaultLogSensor;
     DisableMqtt := false;
     Mqtt := {| Host := ""; Topic := ""; ClientKeyFile := "";
                ClientCertFile := ""; ServerCaFile := "" |};
     Sensor := defaultSensorConfig |}.

(** Field assignments [conf.F = v]. *)
Definition set_Placement (v : string) (c : Config) : Config :=
  {| Placement := v; MetricConfig := MetricConfig c; IntervalSecs := IntervalSecs c;
     LogSensor := LogSensor c; DisableMqtt := DisableMqtt c; Mqtt := Mqtt c;
     Sensor := Sensor c |}.
Definition set_MetricConfig (v : string) (c : Config) : Config :=
  {| Placement := Placement c; MetricConfig := v; IntervalSecs := IntervalSecs c;
     LogSensor := LogSensor c; DisableMqtt := DisableMqtt c; Mqtt := Mqtt c;
     Sensor := Sensor c |}.
Definition set_IntervalSecs (v : Z) (c : Config) : Config :=
  {| Placement := Placement c; MetricConfig := MetricConfig c; IntervalSecs := v;
     LogSensor := LogSensor c; DisableMqtt := DisableMqtt c; Mqtt := Mqtt c;
     Sensor := Sensor c |}.
Definition set_LogSensor (v : bool) (c : Config) : Config :=
  {| Placement := Placement c; MetricConfig := MetricConfig c;
     IntervalSecs := IntervalSecs c; LogSensor := v; DisableMqtt := DisableMqtt c;
     Mqtt := Mqtt c; Sensor := Sensor c |}.
Definition set_DisableMqtt (v : bool) (c : Config) : Config :=
  {| Placement := Placement c; MetricConfig := MetricConfig c;
     IntervalSecs := IntervalSecs c; LogSensor := LogSensor c; DisableMqtt := v;
     Mqtt := Mqtt c; Sensor := Sensor c |}.
Definition set_Mqtt (v : MqttConfig) (c : Config) : Config :=
  {| Placement := Placement c; MetricConfig := MetricConfig c;
     IntervalSecs := IntervalSecs c; LogSensor := LogSensor c;
     DisableMqtt := DisableMqtt c; Mqtt := v; Sensor := Sensor c |}.
Definition set_Sensor (v : SensorConfig) (c : Config) : Config :=
  {| Placement := Placement c; MetricConfig := MetricConfig c;
     IntervalSecs := IntervalSecs c; LogSensor := LogSensor c;
     DisableMqtt := DisableMqtt c; Mqtt := Mqtt c; Sensor := v |}.
Definition set_Host (v : string) (c : Config) : Config :=
  set_Mqtt {| Host := v; Topic := Topic (Mqtt c); ClientKeyFile := ClientKeyFile (Mqtt c);
              ClientCertFile := ClientCertFile (Mqtt c);
              ServerCaFile := ServerCaFile (Mqtt c) |} c.
Definition set_Topic (v : string) (c : Config) : Config :=
  set_Mqtt {| Host := Host (Mqtt c); Topic := v; ClientKeyFile := ClientKeyFile (Mqtt c);
              ClientCertFile := ClientCertFile (Mqtt c);
              ServerCaFile := ServerCaFile (Mqtt c) |} c.
Definition set_ClientKeyFile (v : string) (c : Config) : Config :=
  set_Mqtt {| Host := Host (Mqtt c); Topic := Topic (Mqtt c); ClientKeyFile := v;
              ClientCertFile := ClientCertFile (Mqtt c);
              ServerCaFile := ServerCaFile (Mqtt c) |} c.
Definition set_ClientCertFile (v : string) (c : Config) : Config :=
  set_Mqtt {| Host := Host (Mqtt c); Topic := Topic (Mqtt c);
              ClientKeyFile := ClientKeyFile (Mqtt c); ClientCertFile := v;
              ServerCaFile := ServerCaFile (Mqtt c) |} c.
Definition set_ServerCaFile (v : string) (c : Config) : Config :=
  set_Mqtt {| Host := Host (Mqtt c); Topic := Topic (Mqtt c);
              ClientKeyFile := ClientKeyFile (Mqtt c);
              ClientCertFile := ClientCertFile (Mqtt c); ServerCaFile := v |} c.

(** [v, err := f(); if err == nil { conf.F = v }] *)
Definition assign_if_ok {A} (r : result A) (set : A -> Config -> Config)
    (conf : Config) : Config :=
  match r with
  | Ok v => set v conf
  | Err _ => conf
  end.

(** The statements of [ConfigFromEnv] after [conf := DefaultConfig()], run
    on [conf]. *)
Definition overrideFromEnv (env : gmap string string) (conf : Config) : Config :=
  let conf := assign_if_ok (fromEnv env "placement") set_Placement conf in
  let conf := assign_if_ok (fromEnvBool env "LOG_SENSOR") set_LogSensor conf in
  let conf := assign_if_ok (fromEnvInt env "INTERVAL_S") set_IntervalSecs conf in
  let conf := assign_if_ok (fromEnvBool env "DISABLE_MQTT") set_DisableMqtt conf in
  let conf := assign_if_ok (fromEnv env "MQTT_HOST") set_Host conf in
  let conf := assign_if_ok (fromEnv env "MQTT_TOPIC") set_Topic conf in
  let conf := assign_if_ok (fromEnv env "METRICS_ADDR") set_MetricConfig conf in
  let conf := assign_if_ok (fromEnv env "SSL_CLIENT_KEY_FILE") set_ClientKeyFile conf in
  let conf := assign_if_ok (fromEnv env "SSL_CLIENT_CERT_FILE") set_ClientCertFile conf in
  set_Sensor (SensorConfig_ConfigFromEnv env (Sensor conf)) conf.

Definition ConfigFromEnv (env : gmap string string) : Config :=
  overrideFromEnv env DefaultConfig.

(** [json.Unmarshal(fileContent, &ret)]: the destination after the call and
    the error. *)
Definition store (jf : JsonFields) (ret : Config) : Config :=
  {| Placement := layer (jPlacement jf) (Placement ret);
     MetricConfig := layer (jMetricConfig jf) (MetricConfig ret);
     IntervalSecs := layer (jIntervalSecs jf) (IntervalSecs ret);
     LogSensor := layer (jLogSensor jf) (LogSensor ret);
     DisableMqtt := layer (jDisableMqtt jf) (DisableMqtt ret);
     Mqtt := {| Host := layer (jHost jf) (Host (Mqtt ret));
                Topic := layer (jTopic jf) (Topic (Mqtt ret));
                ClientKeyFile := layer (jClientKeyFile jf) (ClientKeyFile (Mqtt ret));
                ClientCertFile := layer (jClientCertFile jf) (ClientCertFile (Mqtt ret));
                ServerCaFile := layer (jServerCaFile jf) (ServerCaFile (Mqtt ret)) |};
     Sensor := jSensor jf (Sensor ret) |}.

Definition Unmarshal (data : string) (ret : Config) : Config * option error :=
  let '(jf, err) := Decode data in (store jf ret, err).

(** The Go pair of a [Config] pointer and an [error]: each component may be
    nil. *)
Definition ReadJsonConfig (filePath : string) : option Config * option error :=
  match ReadFile filePath with
  | inr err =>
      (None, Some (errorString ("could not read config from file: " +:+ err)))
  | inl fileContent =>
      let ret := DefaultConfig in
      let '(ret, err) := Unmarshal fileContent ret in
      (Some ret, err)
  end.

Definition Validate (conf : Config) : option error :=
  if String.eqb (Placement conf) "" then
    Some (errorString "empty placement provided")
  else if IntervalSecs conf <? 30 then
    Some (errorString ("invalid interval: must not be lower than 30 but is "
                       +:+ fmt_d (IntervalSecs conf)))
  else if IntervalSecs conf >? 300 then
    Some (errorString ("invalid interval: mut not be greater than 300 but is "
                       +:+ fmt_d (IntervalSecs conf)))
  else
    match SensorConfig_Validate (Sensor conf) with
    | Some err => Some err
    | None =>
        if DisableMqtt conf then None
        else MqttConfig_Validate (Mqtt conf)
    end.

(** The fields [config.go] itself declares or assigns, that is every field but
    the sensor sub-configuration. *)
Definition own_fields (conf : Config)
    : string * string * Z * bool * bool * MqttConfig :=
  (Placement conf, MetricConfig conf, IntervalSecs conf, LogSensor conf,
   DisableMqtt conf, Mqtt conf).

(** A result pair as its caller may use it: the configuration when the error
    is nil, nothing otherwise. *)
Definition usable (r : option Config * option error) : option Config :=
  match r with
  | (conf, None) => conf
  | (_, Some _) => None
  end.

(** *** The validator as the specification words it

    Six rules in a fixed order; each lets validation go on, ends it with
    success, or ends it with a reason. *)

Inductive Rule :=
| RulePlacement
| RuleIntervalLower
| RuleIntervalUpper
| RuleSensor
| RuleMqttDisabled
| RuleMqtt.

Inductive Outcome :=
| Next
| Accepted
| Rejected (reason : error).

Definition rule_order : list Rule :=
  [RulePlacement; RuleIntervalLower; RuleIntervalUpper; RuleSensor;
   RuleMqttDisabled; RuleMqtt].

Definition of_check (r : option error) : Outcome :=
  match r with
  | Some err => Rejected err
  | None => Next
  end.

Definition rule_outcome (r : Rule) (conf : Config) : Outcome :=
  match r with
  | RulePlacement =>
      if String.eqb (Placement conf) ""
      then Rejected (errorString "empty placement provided") else Next
  | RuleIntervalLower =>
      if IntervalSecs conf <? 30
      then Rejected (errorString
             ("invalid interval: must not be lower than 30 but is "
              +:+ fmt_d (IntervalSecs conf)))
      else Next
  | RuleIntervalUpper =>
      if IntervalSecs conf >? 300
      then Rejected (errorString
             ("invalid interval: mut not be greater than 300 but is "
              +:+ fmt_d (IntervalSecs conf)))
      else Next
  | RuleSensor => of_check (SensorConfig_Validate (Sensor conf))
  | RuleMqttDisabled => if DisableMqtt conf then Accepted else Next
  | RuleMqtt => of_check (MqttConfig_Validate (Mqtt conf))
  end.

Fixpoint first_decision (rules : list Rule) (conf : Config) : option error :=
  match rules with
  | [] => None
  | r :: rules =>
      match rule_outcome r conf with
      | Next => first_decision rules conf
      | Accepted => None
      | Rejected err => Some err
      end
  end.

(** *** The resolver's entry point *)

(** Modelled from the spec: [config.Read], the function [main] calls with the
    path given on the command line; it is not in [config.go].  "Input: an
    optional file path (empty string: skip file layer); the process
    environment"; the layers are the defaults, then the file, then the
    environment; "a missing file or parse failure is a fatal error reported
    to the caller", and "either a fully validated configuration is returned,
    or an error is returned". *)
Definition Read (env : gmap string string) (filePath : string)
    : option Config * option error :=
  if String.eqb filePath "" then
    (Some (overrideFromEnv env DefaultConfig), None)
  else
    match ReadJsonConfig filePath with
    | (_, Some err) => (None, Some err)
    | (Some conf, None) => (Some (overrideFromEnv env conf), None)
    | (None, None) => (None, Some (errorString "no configuration"))
    end.

(** The three layers, field by field: the value of the environment when it
    provides one, else the value of the file when it provides one, else the
    default. *)
Definition layered (env : gmap string string) (jf : JsonFields) : Config :=
  {| Placement := layer (provided (fromEnv env "placement")) (layer (jPlacement jf) "");
     MetricConfig := layer (provided (fromEnv env "METRICS_ADDR"))
                       (layer (jMetricConfig jf) defaultMetricConfig);
     IntervalSecs := layer (provided (fromEnvInt env "INTERVAL_S"))
                       (layer (jIntervalSecs jf) defaultIntervalSeconds);
     LogSensor := layer (provided (fromEnvBool env "LOG_SENSOR"))
                    (layer (jLogSensor jf) defaultLogSensor);
     DisableMqtt := layer (provided (fromEnvBool env "DISABLE_MQTT"))
                      (layer (jDisableMqtt jf) false);
     Mqtt := {| Host := layer (provided (fromEnv env "MQTT_HOST")) (layer (jHost jf) "");
                Topic := layer (provided (fromEnv env "MQTT_TOPIC")) (layer (jTopic jf) "");
                ClientKeyFile := layer (provided (fromEnv env "SSL_CLIENT_KEY_FILE"))
                                   (layer (jClientKeyFile jf) "");
                ClientCertFile := layer (provided (fromEnv env "SSL_CLIENT_CERT_FILE"))
                                    (layer (jClientCertFile jf) "");
                ServerCaFile := layer (jServerCaFile jf) "" |};
     Sensor := SensorConfig_ConfigFromEnv env (jSensor jf defaultSensorConfig) |}.

(** *** The report *)

(** Declared in the package, outside [config.go]: what the two
    sub-configurations make the logger write. *)
Variable SensorConfig_Print : SensorConfig -> list string.
Variable MqttConfig_Print : MqttConfig -> list string.

(** [%t] of [fmt]. *)
Definition fmt_t (b : bool) : string := if b then "true" else "false".

(** [Print] as what each of its calls makes the logger write, in order. *)
Definition Print (conf : Config) : list string :=
  ([log_Println "-----------------";
    log_Println "Configuration:";
    log_entry ("Placement=" +:+ Placement conf);
    log_entry ("LogSensor=" +:+ fmt_t (LogSensor conf));
    log_entry ("MetricConfig=" +:+ MetricConfig conf);
    log_entry ("IntervalSecs=" +:+ fmt_d (IntervalSecs conf));
    log_entry ("DisableMqtt=" +:+ fmt_t (DisableMqtt conf))]
   ++ SensorConfig_Print (Sensor conf)
   ++ (if negb (DisableMqtt conf) then MqttConfig_Print (Mqtt conf) else [])
   ++ [log_Println "-----------------"])%list.

(** *** Keys and the fields they settle *)

(** The helper [ConfigFromEnv] calls for a key: [fromEnv], [fromEnvInt] or
    [fromEnvBool]. *)
Inductive KeyKind :=
| KString
| KInt
| KBool.

Inductive FieldValue :=
| VString (s : string)
| VInt (n : Z)
| VBool (b : bool).

Definition kind_of_key (key : string) : option KeyKind :=
  if String.eqb key "placement" then Some KString
  else if String.eqb key "LOG_SENSOR" then Some KBool
  else if String.eqb key "INTERVAL_S" then Some KInt
  else if String.eqb key "DISABLE_MQTT" then Some KBool
  else if String.eqb key "MQTT_HOST" then Some KString
  else if String.eqb key "MQTT_TOPIC" then Some KString
  else if String.eqb key "METRICS_ADDR" then Some KString
  else if String.eqb key "SSL_CLIENT_KEY_FILE" then Some KString
  else if String.eqb key "SSL_CLIENT_CERT_FILE" then Some KString
  else None.

(** The field [ConfigFromEnv] assigns after looking a key up. *)
Definition field_of_key (key : string) (conf : Config) : option FieldValue :=
  if String.eqb key "placement" then Some (VString (Placement conf))
  else if String.eqb key "LOG_SENSOR" then Some (VBool (LogSensor conf))
  else if String.eqb key "INTERVAL_S" then Some (VInt (IntervalSecs conf))
  else if String.eqb key "DISABLE_MQTT" then Some (VBool (DisableMqtt conf))
  else if String.eqb key "MQTT_HOST" then Some (VString (Host (Mqtt conf)))
  else if String.eqb key "MQTT_TOPIC" then Some (VString (Topic (Mqtt conf)))
  else if String.eqb key "METRICS_ADDR" then Some (VString (MetricConfig conf))
  else if String.eqb key "SSL_CLIENT_KEY_FILE"
       then Some (VString (ClientKeyFile (Mqtt conf)))
  else if String.eqb key "SSL_CLIENT_CERT_FILE"
       then Some (VString (ClientCertFile (Mqtt conf)))
  else None.

(** What the helper of a kind makes of the value of a variable. *)
Definition convert (kind : KeyKind) (val : string) : option FieldValue :=
  if String.eqb val "" then None
  else match kind with
       | KString => Some (VString val)
       | KInt => option_map VInt (provided (strconv.Atoi val))
       | KBool => option_map VBool (provided (strconv.ParseBool val))
       end.

(** What the helper of a kind returns for a key in an environment. *)
Definition lookup_as (kind : KeyKind) (env : gmap string string) (key : string)
    : option FieldValue :=
  match kind with
  | KString => option_map VString (provided (fromEnv env key))
  | KInt => option_map VInt (provided (fromEnvInt env key))
  | KBool => option_map VBool (provided (fromEnvBool env key))
  end.

(** Membership of a literal key in [recognized_keys]. *)
Ltac recognized :=
  unfold recognized_keys;
  repeat first [apply list_elem_of_here | apply list_elem_of_further].

(** ** Properties *)

(** *** The library functions on a few inputs *)

Example computeEnvName_placement :
  computeEnvName "placement" = "GOBOT_BME280_PLACEMENT" /\
  computeEnvName "SSL_CLIENT_KEY_FILE" = "GOBOT_BME280_SSL_CLIENT_KEY_FILE".
Proof. split; reflexivity. Qed.

Example Atoi_examples :
  strconv.Atoi "60" = Ok 60 /\ strconv.Atoi "-7" = Ok (-7) /\
  strconv.Atoi "+7" = Ok 7 /\
  strconv.Atoi "" = Err (NumError "Atoi" "" ErrSyntax) /\
  strconv.Atoi "6o" = Err (NumError "Atoi" "6o" ErrSyntax) /\
  strconv.Atoi "+" = Err (NumError "Atoi" "+" ErrSyntax) /\
  strconv.Atoi "9223372036854775808" =
    Err (NumError "Atoi" "9223372036854775808" ErrRange) /\
  strconv.Atoi "-9223372036854775808" = Ok (-9223372036854775808).
Proof. repeat split. Qed.

Example Atoi_error_kinds :
  strconv.Atoi "99999999999999999999x" =
    Err (NumError "Atoi" "99999999999999999999x" ErrRange) /\
  strconv.Atoi "9999999999999999999x" =
    Err (NumError "Atoi" "9999999999999999999x" ErrSyntax) /\
  strconv.Atoi "-9223372036854775809" =
    Err (NumError "Atoi" "-9223372036854775809" ErrRange).
Proof. repeat split. Qed.

Example ParseBool_examples :
  strconv.ParseBool "true" = Ok true /\ strconv.ParseBool "0" = Ok false /\
  strconv.ParseBool "yes" = Err (NumError "ParseBool" "yes" ErrSyntax) /\
  strconv.ParseBool "" = Err (NumError "ParseBool" "" ErrSyntax).
Proof. repeat split. Qed.

Example fmt_d_examples :
  fmt_d 29 = "29" /\ fmt_d 301 = "301" /\ fmt_d 0 = "0" /\ fmt_d (-5) = "-5".
Proof. repeat split. Qed.

Example fromEnv_examples :
  fromEnvInt demoEnv "INTERVAL_S" = Ok 120 /\
  fromEnvBool demoEnv "DISABLE_MQTT" = Err (NumError "ParseBool" "maybe" ErrSyntax) /\
  fromEnv demoEnv "placement" = Err (errorString "not defined").
Proof. repeat split. Qed.


(** *** Validation *)

Lemma first_decision_app (before after : list Rule) (r : Rule) (conf : Config) (err : error) :
  Forall (fun r' => rule_outcome r' conf = Next) before ->
  rule_outcome r conf = Rejected err ->
  first_decision (before ++ r :: after)%list conf = Some err.
Proof.
  intros Hbefore Hr. induction Hbefore as [|r' before Hr' _ IH]; simpl.
  - now rewrite Hr.
  - now rewrite Hr'.
Qed.

Lemma Validate_first_decision (conf : Config) :
  Validate conf = first_decision rule_order conf.
Proof.
  unfold Validate, rule_order, first_decision, rule_outcome, of_check.
  destruct (String.eqb (Placement conf) ""); [reflexivity|].
  destruct (IntervalSecs conf <? 30); [reflexivity|].
  destruct (IntervalSecs conf >? 300); [reflexivity|].
  destruct (SensorConfig_Validate (Sensor conf)); [reflexivity|].
  destruct (DisableMqtt conf); [reflexivity|].
  destruct (MqttConfig_Validate (Mqtt conf)); reflexivity.
Qed.

(** C1: [Validate] runs the six rules in their fixed order (placement,
    interval lower bound, interval upper bound, sensor, mqtt-disabled, MQTT)
    and its result is the decision of the first rule that decides: when every
    rule before some rule lets validation go on and that rule rejects, the
    error returned is exactly that rule's.  In particular an empty placement
    is rejected with "empty placement provided" whatever the other fields
    hold. *)
Theorem Validate_first_failing_rule (conf : Config) :
  Validate conf = first_decision rule_order conf /\
  (forall (before : list Rule) (r : Rule) (after : list Rule) (err : error),
      rule_order = (before ++ r :: after)%list ->
      Forall (fun r' => rule_outcome r' conf = Next) before ->
      rule_outcome r conf = Rejected err ->
      Validate conf = Some err) /\
  (Placement conf = "" ->
   Validate conf = Some (errorString "empty placement provided")).
Proof.
  split; [apply Validate_first_decision|split].
  - intros before r after err Horder Hbefore Hr.
    rewrite Validate_first_decision, Horder.
    now apply first_decision_app.
  - intros Hempty. unfold Validate. now rewrite Hempty.
Qed.

Lemma Validate_cases (conf : Config) :
  Validate conf =
    if String.eqb (Placement conf) "" then
      Some (errorString "empty placement provided")
    else if IntervalSecs conf <? 30 then
      Some (errorString ("invalid interval: must not be lower than 30 but is "
                         +:+ fmt_d (IntervalSecs conf)))
    else if 300 <? IntervalSecs conf then
      Some (errorString ("invalid interval: mut not be greater than 300 but is "
                         +:+ fmt_d (IntervalSecs conf)))
    else match SensorConfig_Validate (Sensor conf) with
         | Some err => Some err
         | None => if DisableMqtt conf then None else MqttConfig_Validate (Mqtt conf)
         end.
Proof. unfold Validate. now rewrite Z.gtb_ltb. Qed.

(** C3: the interval range is inclusive at both ends.  A configuration whose
    interval is below 30 or above 300 is rejected; when its placement is not
    empty (so that the interval rules are reached) the error is the interval
    message followed by the offending value printed in decimal.  An interval
    from 30 to 300, both included, is accepted when the other rules hold. *)
Theorem Validate_interval_bounds (conf : Config) :
  (IntervalSecs conf < 30 \/ 300 < IntervalSecs conf -> Validate conf <> None) /\
  (Placement conf <> "" -> IntervalSecs conf < 30 ->
   Validate conf =
     Some (errorString ("invalid interval: must not be lower than 30 but is "
                        +:+ fmt_d (IntervalSecs conf)))) /\
  (Placement conf <> "" -> 300 < IntervalSecs conf ->
   Validate conf =
     Some (errorString ("invalid interval: mut not be greater than 300 but is "
                        +:+ fmt_d (IntervalSecs conf)))) /\
  (Placement conf <> "" -> 30 <= IntervalSecs conf <= 300 ->
   SensorConfig_Validate (Sensor conf) = None ->
   DisableMqtt conf = true \/ MqttConfig_Validate (Mqtt conf) = None ->
   Validate conf = None).
Proof.
  rewrite Validate_cases.
  destruct (String.eqb_spec (Placement conf) "") as [Hp|Hp];
    destruct (Z.ltb_spec (IntervalSecs conf) 30) as [Hlo|Hlo];
    destruct (Z.ltb_spec 300 (IntervalSecs conf)) as [Hhi|Hhi];
    repeat split; intros; try congruence; try lia.
  destruct (SensorConfig_Validate (Sensor conf)); [congruence|].
  destruct (DisableMqtt conf); [reflexivity|].
  match goal with H : _ \/ _ |- _ => destruct H; congruence end.
Qed.

(** C4: with MQTT disabled, a configuration whose placement, interval and
    sensor sub-configuration are valid is accepted whatever its MQTT
    sub-configuration holds: [MqttConfig.Validate] is not consulted, so
    replacing the MQTT sub-configuration by any other leaves it accepted. *)
Theorem Validate_mqtt_disabled (conf : Config) :
  DisableMqtt conf = true ->
  Placement conf <> "" ->
  30 <= IntervalSecs conf <= 300 ->
  SensorConfig_Validate (Sensor conf) = None ->
  Validate conf = None /\
  (forall mqtt : MqttConfig, Validate (set_Mqtt mqtt conf) = None).
Proof.
  intros Hd Hp Hi Hs.
  assert (forall c : Config,
             Placement c = Placement conf -> IntervalSecs c = IntervalSecs conf ->
             DisableMqtt c = DisableMqtt conf -> Sensor c = Sensor conf ->
             Validate c = None) as Hnone.
  { intros c Hp' Hi' Hd' Hs'. rewrite Validate_cases, Hp', Hi', Hd', Hs', Hs, Hd.
    destruct (String.eqb_spec (Placement conf) "") as [|_]; [congruence|].
    destruct (Z.ltb_spec (IntervalSecs conf) 30); [lia|].
    destruct (Z.ltb_spec 300 (IntervalSecs conf)); [lia|reflexivity]. }
  split; [now apply Hnone|].
  intros mqtt. now apply Hnone.
Qed.

(** *** The environment layer *)

Lemma Getenv_insert_empty (env : gmap string string) (name other : string) :
  Getenv (<[name := ""]> env) other = Getenv (delete name env) other.
Proof.
  unfold Getenv. rewrite lookup_insert, lookup_delete.
  now destruct (decide (name = other)).
Qed.

Lemma fromEnv_Ok (env : gmap string string) (name val : string) :
  fromEnv env name = Ok val <->
  env !! computeEnvName name = Some val /\ val <> "".
Proof.
  unfold fromEnv, Getenv.
  destruct (env !! computeEnvName name) as [v|]; simpl.
  - destruct (String.eqb_spec v "") as [->|Hv]; split.
    + intros [=].
    + intros [[= <-] Hval]. now destruct Hval.
    + now intros [= ->].
    + now intros [[= ->] _].
  - split; [intros [=]|]. now intros [[=] _].
Qed.

Lemma fromEnv_Err (env : gmap string string) (name : string) :
  provided (fromEnv env name) = None <->
  env !! computeEnvName name = None \/ env !! computeEnvName name = Some "".
Proof.
  unfold fromEnv, Getenv.
  destruct (env !! computeEnvName name) as [v|]; simpl.
  - destruct (String.eqb_spec v "") as [->|Hv]; simpl.
    + split; auto.
    + split; [intros [=]|]. intros [[=]|[= ->]]. now destruct Hv.
  - split; auto.
Qed.

Lemma fromEnvInt_Ok (env : gmap string string) (name : string) (n : Z) :
  fromEnvInt env name = Ok n <->
  exists val, env !! computeEnvName name = Some val /\ strconv.Atoi val = Ok n.
Proof.
  unfold fromEnvInt. split.
  - destruct (fromEnv env name) as [val|] eqn:Hval; [|discriminate].
    apply fromEnv_Ok in Hval as [Hval _].
    destruct (strconv.Atoi val) eqn:Hn; [|discriminate].
    intros [= ->]. eauto.
  - intros (val & Hval & Hn).
    assert (fromEnv env name = Ok val) as ->.
    { apply fromEnv_Ok. split; [assumption|]. intros ->. discriminate. }
    now rewrite Hn.
Qed.

Lemma fromEnvBool_Ok (env : gmap string string) (name : string) (b : bool) :
  fromEnvBool env name = Ok b <->
  exists val, env !! computeEnvName name = Some val /\ strconv.ParseBool val = Ok b.
Proof.
  unfold fromEnvBool. split.
  - destruct (fromEnv env name) as [val|] eqn:Hval; [|discriminate].
    apply fromEnv_Ok in Hval as [Hval _].
    destruct (strconv.ParseBool val) eqn:Hb; [|discriminate].
    intros [= ->]. eauto.
  - intros (val & Hval & Hb).
    assert (fromEnv env name = Ok val) as ->.
    { apply fromEnv_Ok. split; [assumption|]. intros ->. discriminate. }
    now rewrite Hb.
Qed.

(** What [overrideFromEnv] leaves in every field. *)
Lemma overrideFromEnv_fields (env : gmap string string) (conf : Config) :
  overrideFromEnv env conf =
  {| Placement := layer (provided (fromEnv env "placement")) (Placement conf);
     MetricConfig := layer (provided (fromEnv env "METRICS_ADDR")) (MetricConfig conf);
     IntervalSecs := layer (provided (fromEnvInt env "INTERVAL_S")) (IntervalSecs conf);
     LogSensor := layer (provided (fromEnvBool env "LOG_SENSOR")) (LogSensor conf);
     DisableMqtt := layer (provided (fromEnvBool env "DISABLE_MQTT")) (DisableMqtt conf);
     Mqtt :=
       {| Host := layer (provided (fromEnv env "MQTT_HOST")) (Host (Mqtt conf));
          Topic := layer (provided (fromEnv env "MQTT_TOPIC")) (Topic (Mqtt conf));
          ClientKeyFile := layer (provided (fromEnv env "SSL_CLIENT_KEY_FILE"))
                             (ClientKeyFile (Mqtt conf));
          ClientCertFile := layer (provided (fromEnv env "SSL_CLIENT_CERT_FILE"))
                              (ClientCertFile (Mqtt conf));
          ServerCaFile := ServerCaFile (Mqtt conf) |};
     Sensor := SensorConfig_ConfigFromEnv env (Sensor conf) |}.
Proof.
  unfold overrideFromEnv.
  destruct conf as [? ? ? ? ? [? ? ? ? ?] ?].
  destruct (fromEnv env "placement"), (fromEnvBool env "LOG_SENSOR"),
    (fromEnvInt env "INTERVAL_S"), (fromEnvBool env "DISABLE_MQTT"),
    (fromEnv env "MQTT_HOST"), (fromEnv env "MQTT_TOPIC"),
    (fromEnv env "METRICS_ADDR"), (fromEnv env "SSL_CLIENT_KEY_FILE"),
    (fromEnv env "SSL_CLIENT_CERT_FILE"); reflexivity.
Qed.

Lemma fromEnv_ext (env1 env2 : gmap string string) (name : string) :
  Getenv env1 (computeEnvName name) = Getenv env2 (computeEnvName name) ->
  fromEnv env1 name = fromEnv env2 name /\
  fromEnvInt env1 name = fromEnvInt env2 name /\
  fromEnvBool env1 name = fromEnvBool env2 name.
Proof.
  intros H. assert (fromEnv env1 name = fromEnv env2 name) as Heq.
  { unfold fromEnv. now rewrite H. }
  unfold fromEnvInt, fromEnvBool. now rewrite Heq.
Qed.

Lemma fromEnv_undefined (env : gmap string string) (name : string) :
  Getenv env (computeEnvName name) = "" ->
  fromEnv env name = Err (errorString "not defined") /\
  fromEnvInt env name = Err (errorString "not defined") /\
  fromEnvBool env name = Err (errorString "not defined").
Proof.
  intros H. assert (fromEnv env name = Err (errorString "not defined")) as Heq.
  { unfold fromEnv. now rewrite H. }
  unfold fromEnvInt, fromEnvBool. now rewrite Heq.
Qed.

Lemma own_fields_ext (env1 env2 : gmap string string) (conf : Config) :
  (forall k, k ∈ recognized_keys ->
             Getenv env1 (computeEnvName k) = Getenv env2 (computeEnvName k)) ->
  own_fields (overrideFromEnv env1 conf) = own_fields (overrideFromEnv env2 conf).
Proof.
  intros H. rewrite !overrideFromEnv_fields. unfold own_fields; simpl.
  destruct (fromEnv_ext env1 env2 "placement") as (-> & _ & _); [apply H; recognized|].
  destruct (fromEnv_ext env1 env2 "LOG_SENSOR") as (_ & _ & ->); [apply H; recognized|].
  destruct (fromEnv_ext env1 env2 "INTERVAL_S") as (_ & -> & _); [apply H; recognized|].
  destruct (fromEnv_ext env1 env2 "DISABLE_MQTT") as (_ & _ & ->); [apply H; recognized|].
  destruct (fromEnv_ext env1 env2 "MQTT_HOST") as (-> & _ & _); [apply H; recognized|].
  destruct (fromEnv_ext env1 env2 "MQTT_TOPIC") as (-> & _ & _); [apply H; recognized|].
  destruct (fromEnv_ext env1 env2 "METRICS_ADDR") as (-> & _ & _); [apply H; recognized|].
  destruct (fromEnv_ext env1 env2 "SSL_CLIENT_KEY_FILE") as (-> & _ & _);
    [apply H; recognized|].
  destruct (fromEnv_ext env1 env2 "SSL_CLIENT_CERT_FILE") as (-> & _ & _);
    [apply H; recognized|].
  reflexivity.
Qed.

Lemma layer_string_nonempty (r : result string) (prior : string) :
  (forall val, r = Ok val -> val <> "") ->
  layer (provided r) prior = "" -> prior = "".
Proof.
  intros Hr. destruct r as [val|]; simpl; [|auto].
  intros ->. now destruct (Hr "" eq_refl).
Qed.

Lemma fromEnv_nonempty (env : gmap string string) (name val : string) :
  fromEnv env name = Ok val -> val <> "".
Proof. intros H. now apply fromEnv_Ok in H. Qed.

(** C5: in the environment layer every field is settled by its own variable
    alone.  Each of the nine fields ends as the value its variable provides,
    or as its prior value when the lookup or the conversion fails; the
    layer always returns a configuration.  A lookup provides a value exactly
    when the variable holds a non-empty string (an empty value reads as not
    defined), an integer or boolean one when that string converts, and the
    nine variables have distinct names. *)
Theorem overrideFromEnv_per_field (env : gmap string string) (conf : Config) :
  let conf' := overrideFromEnv env conf in
  (Placement conf' = layer (provided (fromEnv env "placement")) (Placement conf) /\
   LogSensor conf' = layer (provided (fromEnvBool env "LOG_SENSOR")) (LogSensor conf) /\
   IntervalSecs conf' =
     layer (provided (fromEnvInt env "INTERVAL_S")) (IntervalSecs conf) /\
   DisableMqtt conf' =
     layer (provided (fromEnvBool env "DISABLE_MQTT")) (DisableMqtt conf) /\
   Host (Mqtt conf') = layer (provided (fromEnv env "MQTT_HOST")) (Host (Mqtt conf)) /\
   Topic (Mqtt conf') = layer (provided (fromEnv env "MQTT_TOPIC")) (Topic (Mqtt conf)) /\
   MetricConfig conf' =
     layer (provided (fromEnv env "METRICS_ADDR")) (MetricConfig conf) /\
   ClientKeyFile (Mqtt conf') =
     layer (provided (fromEnv env "SSL_CLIENT_KEY_FILE")) (ClientKeyFile (Mqtt conf)) /\
   ClientCertFile (Mqtt conf') =
     layer (provided (fromEnv env "SSL_CLIENT_CERT_FILE")) (ClientCertFile (Mqtt conf))) /\
  (forall name val,
      fromEnv env name = Ok val <->
      env !! computeEnvName name = Some val /\ val <> "") /\
  (forall name,
      provided (fromEnv env name) = None <->
      env !! computeEnvName name = None \/ env !! computeEnvName name = Some "") /\
  (forall name n,
      fromEnvInt env name = Ok n <->
      exists val, env !! computeEnvName name = Some val /\ strconv.Atoi val = Ok n) /\
  (forall name b,
      fromEnvBool env name = Ok b <->
      exists val, env !! computeEnvName name = Some val /\ strconv.ParseBool val = Ok b) /\
  NoDup (computeEnvName <$> recognized_keys).
Proof.
  cbv zeta. rewrite overrideFromEnv_fields; simpl.
  split; [repeat split|].
  split; [apply fromEnv_Ok|].
  split; [apply fromEnv_Err|].
  split; [apply fromEnvInt_Ok|].
  split; [apply fromEnvBool_Ok|].
  apply (bool_decide_unpack _). vm_compute. reflexivity.
Qed.

(** C10: a variable set to the empty string reads exactly like an unset one:
    the lookup reports "not defined" in both cases and the fields of the
    resulting configuration are the same.  Hence no string field can leave
    the environment layer empty unless it was empty before, and the metrics
    address of [ConfigFromEnv] is never empty. *)
Theorem fromEnv_empty_is_undefined (env : gmap string string) (name : string)
    (conf : Config) :
  fromEnv (<[computeEnvName name := ""]> env) name = Err (errorString "not defined") /\
  fromEnv (delete (computeEnvName name) env) name = Err (errorString "not defined") /\
  own_fields (overrideFromEnv (<[computeEnvName name := ""]> env) conf) =
    own_fields (overrideFromEnv (delete (computeEnvName name) env) conf) /\
  (Placement (overrideFromEnv env conf) = "" -> Placement conf = "") /\
  (Host (Mqtt (overrideFromEnv env conf)) = "" -> Host (Mqtt conf) = "") /\
  (Topic (Mqtt (overrideFromEnv env conf)) = "" -> Topic (Mqtt conf) = "") /\
  (MetricConfig (overrideFromEnv env conf) = "" -> MetricConfig conf = "") /\
  (ClientKeyFile (Mqtt (overrideFromEnv env conf)) = "" ->
   ClientKeyFile (Mqtt conf) = "") /\
  (ClientCertFile (Mqtt (overrideFromEnv env conf)) = "" ->
   ClientCertFile (Mqtt conf) = "") /\
  MetricConfig (ConfigFromEnv env) <> "".
Proof.
  split; [|split; [|split]].
  - apply fromEnv_undefined. unfold Getenv. now rewrite lookup_insert_eq.
  - apply fromEnv_undefined. unfold Getenv. now rewrite lookup_delete_eq.
  - apply own_fields_ext. intros k _. apply Getenv_insert_empty.
  - unfold ConfigFromEnv. rewrite !overrideFromEnv_fields; simpl.
    repeat split;
      try (apply layer_string_nonempty; intros val; apply fromEnv_nonempty).
    intros H. apply layer_string_nonempty in H; [discriminate H|].
    intros val. apply fromEnv_nonempty.
Qed.

(** C7: with no file, and with none of the nine variables set in an
    environment in which the sensor's own layer leaves its defaults alone,
    [ConfigFromEnv] returns [DefaultConfig()]: empty placement, metrics
    address ":9192", interval 30, sensor logging off, MQTT not disabled, the
    default sensor sub-configuration. *)
Theorem ConfigFromEnv_nothing_set (env : gmap string string) :
  (forall k, k ∈ recognized_keys -> env !! computeEnvName k = None) ->
  SensorConfig_ConfigFromEnv env defaultSensorConfig = defaultSensorConfig ->
  ConfigFromEnv env = DefaultConfig /\
  Placement (ConfigFromEnv env) = "" /\
  MetricConfig (ConfigFromEnv env) = ":9192" /\
  IntervalSecs (ConfigFromEnv env) = 30 /\
  LogSensor (ConfigFromEnv env) = false /\
  DisableMqtt (ConfigFromEnv env) = false /\
  Sensor (ConfigFromEnv env) = defaultSensorConfig.
Proof.
  intros Hunset Hsensor.
  assert (forall k, k ∈ recognized_keys -> Getenv env (computeEnvName k) = "") as Hget.
  { intros k Hk. unfold Getenv. now rewrite (Hunset k Hk). }
  assert (ConfigFromEnv env = DefaultConfig) as ->; [|now repeat split].
  unfold ConfigFromEnv. rewrite overrideFromEnv_fields.
  destruct (fromEnv_undefined env "placement") as (-> & _ & _); [apply Hget; recognized|].
  destruct (fromEnv_undefined env "LOG_SENSOR") as (_ & _ & ->); [apply Hget; recognized|].
  destruct (fromEnv_undefined env "INTERVAL_S") as (_ & -> & _); [apply Hget; recognized|].
  destruct (fromEnv_undefined env "DISABLE_MQTT") as (_ & _ & ->);
    [apply Hget; recognized|].
  destruct (fromEnv_undefined env "MQTT_HOST") as (-> & _ & _); [apply Hget; recognized|].
  destruct (fromEnv_undefined env "MQTT_TOPIC") as (-> & _ & _); [apply Hget; recognized|].
  destruct (fromEnv_undefined env "METRICS_ADDR") as (-> & _ & _);
    [apply Hget; recognized|].
  destruct (fromEnv_undefined env "SSL_CLIENT_KEY_FILE") as (-> & _ & _);
    [apply Hget; recognized|].
  destruct (fromEnv_undefined env "SSL_CLIENT_CERT_FILE") as (-> & _ & _);
    [apply Hget; recognized|].
  simpl. unfold DefaultConfig. now rewrite Hsensor.
Qed.

(** C8: the environment layer never touches the server CA path, whatever the
    environment holds; of the fields [config.go] knows, the other nine are the
    only ones it can change, and what it leaves in them depends on the
    environment through the nine recognized variables alone.  The sensor
    sub-configuration is handed to the sensor's own environment layer. *)
Theorem overrideFromEnv_frame (env : gmap string string) (conf : Config) :
  ServerCaFile (Mqtt (overrideFromEnv env conf)) = ServerCaFile (Mqtt conf) /\
  ServerCaFile (Mqtt (ConfigFromEnv env)) = ServerCaFile (Mqtt DefaultConfig) /\
  Sensor (overrideFromEnv env conf) = SensorConfig_ConfigFromEnv env (Sensor conf) /\
  (forall env' : gmap string string,
      (forall k, k ∈ recognized_keys ->
                 Getenv env (computeEnvName k) = Getenv env' (computeEnvName k)) ->
      own_fields (overrideFromEnv env conf) = own_fields (overrideFromEnv env' conf)).
Proof.
  split; [|split; [|split]].
  - now rewrite overrideFromEnv_fields.
  - unfold ConfigFromEnv. now rewrite overrideFromEnv_fields.
  - now rewrite overrideFromEnv_fields.
  - intros env'. apply own_fields_ext.
Qed.

(** *** Names of the variables *)

Lemma upper_byte_idemp (c : ascii) :
  strings.upper_byte (strings.upper_byte c) = strings.upper_byte c.
Proof. destruct c as [[] [] [] [] [] [] [] []]; reflexivity. Qed.

Lemma upper_lower_byte (c : ascii) :
  strings.upper_byte (strings.lower_byte c) = strings.upper_byte c.
Proof. destruct c as [[] [] [] [] [] [] [] []]; reflexivity. Qed.

Lemma ToUpper_idemp (s : string) :
  strings.ToUpper (strings.ToUpper s) = strings.ToUpper s.
Proof.
  induction s as [|c s IH]; simpl; [reflexivity|].
  now rewrite upper_byte_idemp, IH.
Qed.

Lemma ToUpper_ToLower (s : string) :
  strings.ToUpper (strings.ToLower s) = strings.ToUpper s.
Proof.
  induction s as [|c s IH]; simpl; [reflexivity|].
  now rewrite upper_lower_byte, IH.
Qed.

Lemma isASCII_upper_byte (c : ascii) :
  (nat_of_ascii (strings.upper_byte c) <? 128)%nat = (nat_of_ascii c <? 128)%nat.
Proof. destruct c as [[] [] [] [] [] [] [] []]; reflexivity. Qed.

Lemma isASCII_lower_byte (c : ascii) :
  (nat_of_ascii (strings.lower_byte c) <? 128)%nat = (nat_of_ascii c <? 128)%nat.
Proof. destruct c as [[] [] [] [] [] [] [] []]; reflexivity. Qed.

Lemma isASCII_ToUpper (s : string) :
  strings.isASCII (strings.ToUpper s) = strings.isASCII s.
Proof.
  induction s as [|c s IH]; [reflexivity|].
  cbn [strings.ToUpper strings.isASCII]. now rewrite isASCII_upper_byte, IH.
Qed.

Lemma isASCII_ToLower (s : string) :
  strings.isASCII (strings.ToLower s) = strings.isASCII s.
Proof.
  induction s as [|c s IH]; [reflexivity|].
  cbn [strings.ToLower strings.isASCII]. now rewrite isASCII_lower_byte, IH.
Qed.

(** C6: the variable consulted for a key is named by the upper-cased bot name,
    an underscore and the upper-cased key: "GOBOT_BME280_" followed by the key
    in upper case.  The name is a function of the key alone and, for keys made
    of ASCII bytes as all the keys of the package are, does not depend on the
    case in which the key is written. *)
Theorem computeEnvName_upper (env : gmap string string) (name : string) :
  strings.isASCII name = true ->
  computeEnvName name = "GOBOT_BME280_" +:+ strings.ToUpper name /\
  computeEnvName "placement" = "GOBOT_BME280_PLACEMENT" /\
  fromEnv env name =
    (if String.eqb (Getenv env ("GOBOT_BME280_" +:+ strings.ToUpper name)) ""
     then Err (errorString "not defined")
     else Ok (Getenv env ("GOBOT_BME280_" +:+ strings.ToUpper name))) /\
  (strings.isASCII (strings.ToUpper name) = true /\
   computeEnvName (strings.ToUpper name) = computeEnvName name) /\
  (strings.isASCII (strings.ToLower name) = true /\
   computeEnvName (strings.ToLower name) = computeEnvName name) /\
  (forall other, strings.isASCII other = true ->
                 strings.ToUpper other = strings.ToUpper name ->
                 computeEnvName other = computeEnvName name) /\
  (forall key, key ∈ recognized_keys -> strings.isASCII key = true).
Proof.
  intros Hascii.
  assert (forall n, computeEnvName n = "GOBOT_BME280_" +:+ strings.ToUpper n) as Hname.
  { reflexivity. }
  split; [reflexivity|split; [reflexivity|split; [reflexivity|]]].
  split; [|split; [|split]].
  - split; [now rewrite isASCII_ToUpper|]. now rewrite !Hname, ToUpper_idemp.
  - split; [now rewrite isASCII_ToLower|]. now rewrite !Hname, ToUpper_ToLower.
  - intros other _ Hother. now rewrite !Hname, Hother.
  - apply Forall_forall. unfold recognized_keys.
    repeat (apply Forall_cons; split; [reflexivity|]). apply Forall_nil_2.
Qed.

(** *** The file layer and the three layers together *)

Lemma ReadJsonConfig_cases (filePath : string) :
  ReadJsonConfig filePath =
    match ReadFile filePath with
    | inr msg => (None, Some (errorString ("could not read config from file: " +:+ msg)))
    | inl content => (Some (store (Decode content).1 DefaultConfig), (Decode content).2)
    end.
Proof.
  unfold ReadJsonConfig, Unmarshal.
  destruct (ReadFile filePath) as [content|msg]; [|reflexivity].
  now destruct (Decode content).
Qed.

Lemma layer_precedence {A} (e f : option A) (d : A) :
  layer e (layer f d) =
    match e, f with
    | Some v, _ => v
    | None, Some v => v
    | None, None => d
    end.
Proof. now destruct e, f. Qed.

(** C2: resolution puts three layers on top of each other.  [ReadJsonConfig]
    stores the members of the file over [DefaultConfig()], [ConfigFromEnv]
    puts the environment over [DefaultConfig()], and [Read] puts the
    environment over the file over the defaults: without a path the result
    is the environment over the defaults, with a path to a decodable file
    every field holds the value of the environment when it provides one,
    else the value of the file when it provides one, else the default. *)
Theorem Read_layers (env : gmap string string) (filePath content : string)
    (jf : JsonFields) :
  (ReadFile filePath = inl content -> Decode content = (jf, None) ->
   ReadJsonConfig filePath = (Some (store jf DefaultConfig), None)) /\
  ConfigFromEnv env = layered env emptyFields /\
  Read env "" = (Some (layered env emptyFields), None) /\
  (filePath <> "" -> ReadFile filePath = inl content -> Decode content = (jf, None) ->
   Read env filePath = (Some (layered env jf), None)) /\
  (forall (A : Type) (e f : option A) (d : A),
      layer e (layer f d) =
        match e, f with
        | Some v, _ => v
        | None, Some v => v
        | None, None => d
        end).
Proof.
  assert (forall jf', overrideFromEnv env (store jf' DefaultConfig) = layered env jf')
    as Hlayers.
  { intros jf'. now rewrite overrideFromEnv_fields. }
  split; [|split; [|split; [|split]]].
  - intros Hread Hdecode. now rewrite ReadJsonConfig_cases, Hread, Hdecode.
  - unfold ConfigFromEnv. now rewrite overrideFromEnv_fields.
  - unfold Read; simpl. now rewrite overrideFromEnv_fields.
  - intros Hpath Hread Hdecode. unfold Read.
    destruct (String.eqb_spec filePath "") as [|_]; [congruence|].
    now rewrite ReadJsonConfig_cases, Hread, Hdecode, Hlayers.
  - intros A e f d. apply layer_precedence.
Qed.

(** C9: a file that cannot be read, or whose content does not decode, makes
    [ReadJsonConfig] return an error.  On a read failure the configuration
    pointer is nil.  On a decode failure the pointer returned next to the
    error is not nil (it points to the defaults with whatever the decoder
    stored), but the error is, so the pair is not a usable result; a caller
    gets a usable configuration only from a file that was read and decoded
    without error. *)
Theorem ReadJsonConfig_failure_reported (filePath : string) :
  (forall msg, ReadFile filePath = inr msg ->
     ReadJsonConfig filePath =
       (None, Some (errorString ("could not read config from file: " +:+ msg)))) /\
  (forall content jf err,
     ReadFile filePath = inl content -> Decode content = (jf, Some err) ->
     ReadJsonConfig filePath = (Some (store jf DefaultConfig), Some err) /\
     usable (ReadJsonConfig filePath) = None) /\
  (forall conf, usable (ReadJsonConfig filePath) = Some conf ->
     exists content jf,
       ReadFile filePath = inl content /\ Decode content = (jf, None) /\
       conf = store jf DefaultConfig).
Proof.
  rewrite ReadJsonConfig_cases. split; [|split].
  - now intros msg ->.
  - intros content jf err -> ->. now split.
  - intros conf. destruct (ReadFile filePath) as [content|msg]; [|intros [=]].
    destruct (Decode content) as [jf [err|]] eqn:Hdecode; simpl; [intros [=]|].
    intros [= <-]. now exists content, jf.
Qed.

(** ** Further properties of the package *)

(** *** Validation *)

Lemma fmt_d_inj (a b : Z) : fmt_d a = fmt_d b -> a = b.
Proof.
  unfold fmt_d. intros H.
  assert (forall z, NilZero.int_of_string (NilZero.string_of_int (Z.to_int z))
                    = Some (Z.to_int z)) as Hparse.
  { intros z. apply NilZero.isi; destruct z; simpl; try discriminate;
      intros [= Hnil]; now apply DecimalPos.Unsigned.to_uint_nonnil in Hnil. }
  apply (f_equal NilZero.int_of_string) in H. rewrite !Hparse in H.
  injection H as H. apply (f_equal Z.of_int) in H.
  now rewrite !DecimalZ.of_to in H.
Qed.

(** X1: [Validate] accepts a configuration exactly when its placement is not
    empty, its interval lies in 30..300, its sensor sub-configuration
    validates and MQTT is either disabled or validates. *)
Theorem Validate_accepts_iff (conf : Config) :
  Validate conf = None <->
  Placement conf <> "" /\
  30 <= IntervalSecs conf <= 300 /\
  SensorConfig_Validate (Sensor conf) = None /\
  (DisableMqtt conf = true \/ MqttConfig_Validate (Mqtt conf) = None).
Proof.
  rewrite Validate_cases.
  destruct (String.eqb_spec (Placement conf) "") as [Hp|Hp];
    [split; [discriminate | intros (? & _); congruence]|].
  destruct (Z.ltb_spec (IntervalSecs conf) 30) as [Hlo|Hlo];
    [split; [discriminate | intros (_ & ? & _); lia]|].
  destruct (Z.ltb_spec 300 (IntervalSecs conf)) as [Hhi|Hhi];
    [split; [discriminate | intros (_ & ? & _); lia]|].
  destruct (SensorConfig_Validate (Sensor conf)) as [err|];
    [split; [discriminate | intros (_ & _ & ? & _); congruence]|].
  destruct (DisableMqtt conf).
  - split; [|reflexivity]. intros _. repeat split; auto; lia.
  - split.
    + intros Hm. repeat split; auto; lia.
    + intros (_ & _ & _ & [Hd|Hm]); [discriminate|assumption].
Qed.

(** X2: [Validate] never looks at the metrics address or at the sensor
    logging flag: giving them any value leaves its result as it is, so an
    empty or ill-formed metrics address passes validation.  With MQTT
    disabled the same holds for the whole MQTT sub-configuration, whatever
    the result is. *)
Theorem Validate_ignores_metrics_and_logging (conf : Config) (addr : string)
    (logSensor : bool) :
  Validate (set_MetricConfig addr conf) = Validate conf /\
  Validate (set_LogSensor logSensor conf) = Validate conf /\
  (DisableMqtt conf = true ->
   forall mqtt : MqttConfig, Validate (set_Mqtt mqtt conf) = Validate conf).
Proof.
  split; [reflexivity|split; [reflexivity|]].
  intros Hd mqtt. unfold Validate; simpl. now rewrite Hd.
Qed.

(** X3: an interval error names its value without ambiguity: two
    configurations with a placement whose intervals are both out of range
    get the same result from [Validate] only if their intervals are equal. *)
Theorem Validate_interval_error_identifies_value (c1 c2 : Config) :
  Placement c1 <> "" -> Placement c2 <> "" ->
  ~ 30 <= IntervalSecs c1 <= 300 ->
  ~ 30 <= IntervalSecs c2 <= 300 ->
  Validate c1 = Validate c2 ->
  IntervalSecs c1 = IntervalSecs c2.
Proof.
  intros Hp1 Hp2 Hi1 Hi2. rewrite !Validate_cases.
  destruct (String.eqb_spec (Placement c1) "") as [|_]; [congruence|].
  destruct (String.eqb_spec (Placement c2) "") as [|_]; [congruence|].
  destruct (Z.ltb_spec (IntervalSecs c1) 30), (Z.ltb_spec (IntervalSecs c2) 30),
    (Z.ltb_spec 300 (IntervalSecs c1)), (Z.ltb_spec 300 (IntervalSecs c2));
    try lia; simpl; intros Heq;
    first [discriminate Heq | injection Heq as Heq; now apply fmt_d_inj].
Qed.

(** *** Validation of what the layers produce *)

(** X4: the defaults alone never validate, and a configuration built from the
    environment validates only if the placement variable holds a non-empty
    value; without it [Validate] reports the empty placement, whatever the
    other variables hold. *)
Theorem Validate_ConfigFromEnv_needs_placement (env : gmap string string) :
  Validate DefaultConfig = Some (errorString "empty placement provided") /\
  (Validate (ConfigFromEnv env) = None ->
   exists val, env !! "GOBOT_BME280_PLACEMENT" = Some val /\ val <> "" /\
               Placement (ConfigFromEnv env) = val) /\
  (provided (fromEnv env "placement") = None ->
   Validate (ConfigFromEnv env) = Some (errorString "empty placement provided")).
Proof.
  assert (Placement (ConfigFromEnv env) = layer (provided (fromEnv env "placement")) "")
    as Hplacement.
  { unfold ConfigFromEnv. now rewrite overrideFromEnv_fields. }
  split; [reflexivity|split].
  - intros Hvalid. apply Validate_accepts_iff in Hvalid as (Hp & _).
    rewrite Hplacement in *.
    destruct (fromEnv env "placement") as [val|] eqn:Hval; simpl in *; [|congruence].
    apply fromEnv_Ok in Hval as [Hval Hne]. now exists val.
  - intros Hnone. unfold Validate. now rewrite Hplacement, Hnone.
Qed.

(** X5: a configuration read from a file validates only if the file itself
    provides a non-empty placement. *)
Theorem Validate_ReadJsonConfig_needs_placement (filePath : string) (conf : Config) :
  ReadJsonConfig filePath = (Some conf, None) ->
  Validate conf = None ->
  exists content jf val,
    ReadFile filePath = inl content /\ Decode content = (jf, None) /\
    jPlacement jf = Some val /\ val <> "" /\ Placement conf = val.
Proof.
  rewrite ReadJsonConfig_cases. intros Hread Hvalid.
  destruct (ReadFile filePath) as [content|msg]; [|discriminate].
  destruct (Decode content) as [jf err] eqn:Hdecode; simpl in Hread.
  injection Hread as <- ->.
  apply Validate_accepts_iff in Hvalid as (Hp & _). simpl in Hp.
  destruct (jPlacement jf) as [val|] eqn:Hval; simpl in Hp; [|congruence].
  exists content, jf, val. simpl. now rewrite Hval.
Qed.

(** *** The environment layer, continued *)

Lemma layer_idemp {A} (o : option A) (prior : A) :
  layer o (layer o prior) = layer o prior.
Proof. now destruct o. Qed.

(** X6: running the environment layer a second time changes none of the
    fields [config.go] assigns; the whole configuration is unchanged when the
    sensor's own layer is idempotent on it too. *)
Theorem overrideFromEnv_idempotent (env : gmap string string) (conf : Config) :
  own_fields (overrideFromEnv env (overrideFromEnv env conf)) =
    own_fields (overrideFromEnv env conf) /\
  (SensorConfig_ConfigFromEnv env (SensorConfig_ConfigFromEnv env (Sensor conf)) =
     SensorConfig_ConfigFromEnv env (Sensor conf) ->
   overrideFromEnv env (overrideFromEnv env conf) = overrideFromEnv env conf).
Proof.
  rewrite (overrideFromEnv_fields env (overrideFromEnv env conf)).
  rewrite (overrideFromEnv_fields env conf).
  unfold own_fields.
  cbn [Placement MetricConfig IntervalSecs LogSensor DisableMqtt Mqtt Sensor
       Host Topic ClientKeyFile ClientCertFile ServerCaFile].
  rewrite !layer_idemp. split; [reflexivity|]. now intros ->.
Qed.

(** *** The file layer, continued *)

(** X11: [ReadJsonConfig] never returns a nil configuration together with a
    nil error; the configuration is nil exactly when the file cannot be read,
    and the error is nil exactly when the file is read and decodes. *)
Theorem ReadJsonConfig_result_shape (filePath : string) :
  ReadJsonConfig filePath <> (None, None) /\
  ((ReadJsonConfig filePath).1 = None <-> exists msg, ReadFile filePath = inr msg) /\
  ((ReadJsonConfig filePath).2 = None <->
   exists content, ReadFile filePath = inl content /\ (Decode content).2 = None).
Proof.
  rewrite ReadJsonConfig_cases.
  destruct (ReadFile filePath) as [content|msg]; simpl.
  - split; [discriminate|split].
    + split; [discriminate|]. now intros [msg [=]].
    + split; [intros H; now exists content|]. now intros (? & [= <-] & H).
  - split; [discriminate|split].
    + split; [intros _; now exists msg|reflexivity].
    + split; [discriminate|]. now intros (? & [=] & _).
Qed.

(** *** Setting one variable *)

Ltac key_cases key H :=
  unfold kind_of_key in H;
  repeat match type of H with
         | context [String.eqb key ?lit] =>
             destruct (String.eqb_spec key lit) as [->|?]
         end;
  simpl in H; try discriminate H.

Lemma field_of_key_unknown (key : string) (conf : Config) :
  kind_of_key key = None -> field_of_key key conf = None.
Proof.
  intros H. unfold field_of_key. unfold kind_of_key in H.
  repeat match type of H with
         | context [String.eqb key ?lit] =>
             destruct (String.eqb_spec key lit) as [->|?]; [discriminate H|]
         end.
  reflexivity.
Qed.

Lemma field_of_key_override (env : gmap string string) (key : string)
    (kind : KeyKind) (conf : Config) :
  kind_of_key key = Some kind ->
  field_of_key key (overrideFromEnv env conf) =
    match lookup_as kind env key with
    | Some v => Some v
    | None => field_of_key key conf
    end.
Proof.
  intros H. rewrite overrideFromEnv_fields.
  key_cases key H; injection H as <-; unfold lookup_as, field_of_key;
    cbn [String.eqb Ascii.eqb Bool.eqb andb
         Placement MetricConfig IntervalSecs LogSensor DisableMqtt Mqtt
         Host Topic ClientKeyFile ClientCertFile];
    match goal with
    | |- context [provided ?r] => now destruct r
    end.
Qed.

Lemma fromEnv_insert (env : gmap string string) (key val : string) :
  fromEnv (<[computeEnvName key := val]> env) key =
    if String.eqb val "" then Err (errorString "not defined") else Ok val.
Proof. unfold fromEnv, Getenv. now rewrite lookup_insert_eq. Qed.

Lemma lookup_as_insert (kind : KeyKind) (env : gmap string string) (key val : string) :
  lookup_as kind (<[computeEnvName key := val]> env) key = convert kind val.
Proof.
  unfold lookup_as, convert, fromEnvInt, fromEnvBool. rewrite fromEnv_insert.
  destruct (String.eqb val ""), kind; simpl; try reflexivity.
  - now destruct (strconv.Atoi val).
  - now destruct (strconv.ParseBool val).
Qed.

Lemma lookup_as_ext (kind : KeyKind) (env1 env2 : gmap string string) (key : string) :
  Getenv env1 (computeEnvName key) = Getenv env2 (computeEnvName key) ->
  lookup_as kind env1 key = lookup_as kind env2 key.
Proof.
  intros H. destruct (fromEnv_ext env1 env2 key H) as (Hs & Hi & Hb).
  unfold lookup_as. now rewrite Hs, Hi, Hb.
Qed.

Lemma computeEnvName_recognized_inj (key other : string) (kind kind' : KeyKind) :
  kind_of_key key = Some kind -> kind_of_key other = Some kind' ->
  computeEnvName key = computeEnvName other -> key = other.
Proof.
  intros Hk Ho. key_cases key Hk; key_cases other Ho;
    intros Heq; try reflexivity; vm_compute in Heq; discriminate Heq.
Qed.

(** X7: setting the variable of a recognized key and running the environment
    layer leaves in the key's field what the key's helper makes of the value
    (the value itself for a string key, its integer or boolean for the
    others), or the prior value when the value is empty or does not convert;
    the field of every other key is what it is without the variable. *)
Theorem overrideFromEnv_set_variable (env : gmap string string)
    (key val : string) (kind : KeyKind) (conf : Config) :
  kind_of_key key = Some kind ->
  field_of_key key (overrideFromEnv (<[computeEnvName key := val]> env) conf) =
    match convert kind val with
    | Some v => Some v
    | None => field_of_key key conf
    end /\
  (forall other, other <> key ->
     field_of_key other (overrideFromEnv (<[computeEnvName key := val]> env) conf) =
     field_of_key other (overrideFromEnv env conf)).
Proof.
  intros Hkind. split.
  - now rewrite (field_of_key_override _ key kind), lookup_as_insert.
  - intros other Hother.
    destruct (kind_of_key other) as [kind'|] eqn:Hkind'.
    + rewrite !(field_of_key_override _ other kind') by assumption.
      rewrite (lookup_as_ext kind' (<[computeEnvName key := val]> env) env other);
        [reflexivity|].
      unfold Getenv. rewrite lookup_insert_ne; [reflexivity|].
      intros Heq. apply Hother. symmetry.
      now apply (computeEnvName_recognized_inj key other kind kind').
    + now rewrite !field_of_key_unknown.
Qed.

(** *** Names of the variables, continued *)

Lemma ToUpper_app (x y : string) :
  strings.ToUpper (x +:+ y) = strings.ToUpper x +:+ strings.ToUpper y.
Proof. induction x as [|c x IH]; simpl; [reflexivity|]. now rewrite IH. Qed.

Lemma append_cancel_l (x a b : string) : x +:+ a = x +:+ b -> a = b.
Proof. induction x as [|c x IH]; simpl; [auto|]. intros [= H]. auto. Qed.

Lemma isASCII_app (x y : string) :
  strings.isASCII (x +:+ y) = strings.isASCII x && strings.isASCII y.
Proof.
  induction x as [|c x IH]; [reflexivity|].
  simpl. rewrite IH. now rewrite andb_assoc.
Qed.

(** X8: two keys made of ASCII bytes are looked up under the same variable
    exactly when they are equal up to the case of their letters, and the name
    of their variable is made of ASCII bytes and contains no lower-case
    letter. *)
Theorem computeEnvName_inj_upto_case (a b : string) :
  strings.isASCII a = true -> strings.isASCII b = true ->
  (computeEnvName a = computeEnvName b <-> strings.ToUpper a = strings.ToUpper b) /\
  strings.isASCII (computeEnvName a) = true /\
  strings.ToUpper (computeEnvName a) = computeEnvName a.
Proof.
  intros Ha Hb. split; [split|split].
  - unfold computeEnvName. intros H.
    now apply append_cancel_l, (append_cancel_l "_") in H.
  - intros H. unfold computeEnvName. now rewrite H.
  - unfold computeEnvName. now rewrite !isASCII_app, !isASCII_ToUpper, Ha.
  - unfold computeEnvName. now rewrite !ToUpper_app, !ToUpper_idemp.
Qed.

(** *** Conversions *)

Lemma ParseBool_Ok (val : string) (b : bool) :
  strconv.ParseBool val = Ok b <->
  val ∈ (if b then strconv.true_tokens else strconv.false_tokens).
Proof.
  unfold strconv.ParseBool, strconv.true_tokens, strconv.false_tokens.
  rewrite list_elem_of_In. split.
  - simpl.
    repeat match goal with
           | |- context [String.eqb val ?lit] =>
               destruct (String.eqb_spec val lit) as [->|?]
           end; simpl; intros [= <-]; simpl; auto 10.
  - destruct b; simpl; intros H;
      repeat (destruct H as [<-|H]; [reflexivity|]); destruct H.
Qed.

Lemma of_uint_acc_ge (d : Decimal.uint) (acc : positive) :
  (acc <= Pos.of_uint_acc d acc)%positive.
Proof.
  revert acc. induction d as [|d IH|d IH|d IH|d IH|d IH|d IH|d IH|d IH|d IH|d IH];
    intros acc; cbn [Pos.of_uint_acc]; [lia|..];
    match goal with
    | |- (_ <= Pos.of_uint_acc d ?acc')%positive => specialize (IH acc'); lia
    end.
Qed.

Lemma maxUint64_val : strconv.maxUint64 = 18446744073709551615.
Proof. reflexivity. Qed.

Lemma cutoff10_val : strconv.cutoff10 = 1844674407370955162.
Proof. reflexivity. Qed.

Lemma parseUintLoop_step (c : ascii) (r : string) (n d : Z) :
  strconv.digit_val c = Some d ->
  strconv.parseUintLoop (String c r) n =
    if strconv.cutoff10 <=? n then inr ErrRange
    else if strconv.maxUint64 <? n * 10 + d then inr ErrRange
         else strconv.parseUintLoop r (n * 10 + d).
Proof. intros H. cbn [strconv.parseUintLoop]. now rewrite H. Qed.

Lemma parseUintLoop_of_uint_acc (d : Decimal.uint) (acc : positive) :
  Z.pos acc <= strconv.maxUint64 ->
  strconv.parseUintLoop (NilEmpty.string_of_uint d) (Z.pos acc) =
    if Z.pos (Pos.of_uint_acc d acc) <=? strconv.maxUint64
    then inl (Z.pos (Pos.of_uint_acc d acc)) else inr ErrRange.
Proof.
  revert acc. induction d as [|d IH|d IH|d IH|d IH|d IH|d IH|d IH|d IH|d IH|d IH];
    intros acc Hacc; cbn [NilEmpty.string_of_uint Pos.of_uint_acc].
  1: { cbn [strconv.parseUintLoop].
       now destruct (Z.leb_spec (Z.pos acc) strconv.maxUint64); [|lia]. }
  all: match goal with
       | |- strconv.parseUintLoop (String ?c _) _ = _ =>
           let v := eval vm_compute in (strconv.digit_val c) in
           match v with
           | Some ?k => rewrite (parseUintLoop_step c _ _ k eq_refl)
           end
       end;
       match goal with
       | IH' : forall a, _ |- context [Pos.of_uint_acc ?d' ?acc'] =>
           pose proof (of_uint_acc_ge d' acc') as Hge;
           specialize (IH' acc')
       end;
       rewrite cutoff10_val, maxUint64_val in *;
       match goal with
       | |- context [1844674407370955162 <=? ?n0] =>
           destruct (Z.leb_spec 1844674407370955162 n0)
       end;
       [match goal with
        | |- context [?v <=? 18446744073709551615] =>
            destruct (Z.leb_spec v 18446744073709551615); [lia|reflexivity]
        end|];
       match goal with
       | |- context [18446744073709551615 <? ?n1] =>
           destruct (Z.ltb_spec 18446744073709551615 n1)
       end;
       [match goal with
        | |- context [?v <=? 18446744073709551615] =>
            destruct (Z.leb_spec v 18446744073709551615); [lia|reflexivity]
        end|];
       match goal with
       | IH' : _ -> _ = _ |- _ => rewrite <- IH' by lia; f_equal; lia
       end.
Qed.

Lemma parseUintLoop_of_uint (d : Decimal.uint) :
  strconv.parseUintLoop (NilEmpty.string_of_uint d) 0 =
    if Z.of_N (Pos.of_uint d) <=? strconv.maxUint64
    then inl (Z.of_N (Pos.of_uint d)) else inr ErrRange.
Proof.
  induction d as [|d IH|d IH|d IH|d IH|d IH|d IH|d IH|d IH|d IH|d IH];
    [reflexivity|exact IH|..];
    cbn [NilEmpty.string_of_uint Pos.of_uint Z.of_N];
    match goal with
    | |- strconv.parseUintLoop (String ?c _) _ = _ =>
        let v := eval vm_compute in (strconv.digit_val c) in
        match v with
        | Some ?k => rewrite (parseUintLoop_step c _ _ k eq_refl)
        end
    end;
    change (strconv.cutoff10 <=? 0) with false;
    cbv iota; cbn [Z.mul Z.add];
    match goal with
    | |- context [strconv.maxUint64 <? ?k] => change (strconv.maxUint64 <? k) with false
    end;
    cbv iota; apply parseUintLoop_of_uint_acc; rewrite maxUint64_val; lia.
Qed.

Lemma Atoi_fmt_d (n : Z) :
  strconv.Atoi (fmt_d n) =
    if (strconv.minInt <=? n) && (n <=? strconv.maxInt) then Ok n
    else Err (NumError "Atoi" (fmt_d n) ErrRange).
Proof.
  assert (strconv.minInt = -9223372036854775808) as Hmin by reflexivity.
  assert (strconv.maxInt = 9223372036854775807) as Hmax by reflexivity.
  assert (2 ^ (strconv.intSize - 1) = 9223372036854775808) as Hcut by reflexivity.
  destruct n as [|p|p]; [reflexivity|..]; unfold fmt_d; simpl Z.to_int;
    pose proof (DecimalPos.Unsigned.to_uint_nonnil p) as Hnil;
    pose proof (DecimalPos.Unsigned.of_to p) as Hof;
    pose proof (parseUintLoop_of_uint (Pos.to_uint p)) as Hloop;
    rewrite Hof in Hloop; cbn [Z.of_N] in Hloop;
    unfold NilZero.string_of_int, NilZero.string_of_uint;
    rewrite Hmin, Hmax; rewrite maxUint64_val in Hloop.
  - destruct (Pos.to_uint p) as [|d|d|d|d|d|d|d|d|d|d]; [now destruct Hnil|..];
      unfold strconv.Atoi; cbn [NilEmpty.string_of_uint] in *;
      rewrite Hloop, Hcut;
      destruct (Z.leb_spec (Z.pos p) 18446744073709551615),
        (Z.leb_spec 9223372036854775808 (Z.pos p)),
        (Z.leb_spec (-9223372036854775808) (Z.pos p)),
        (Z.leb_spec (Z.pos p) 9223372036854775807);
      try lia; reflexivity.
  - destruct (Pos.to_uint p) as [|d|d|d|d|d|d|d|d|d|d]; [now destruct Hnil|..];
      unfold strconv.Atoi; cbn [NilEmpty.string_of_uint] in *;
      rewrite Hloop, Hcut;
      destruct (Z.leb_spec (Z.pos p) 18446744073709551615),
        (Z.ltb_spec 9223372036854775808 (Z.pos p)),
        (Z.leb_spec (-9223372036854775808) (Z.neg p)),
        (Z.leb_spec (Z.neg p) 9223372036854775807);
      try lia; reflexivity.
Qed.

Lemma fmt_d_nonempty (n : Z) : String.eqb (fmt_d n) "" = false.
Proof.
  destruct (String.eqb_spec (fmt_d n) "") as [Hempty|]; [|reflexivity].
  pose proof (Atoi_fmt_d n) as H. rewrite Hempty in H.
  now destruct ((strconv.minInt <=? n) && (n <=? strconv.maxInt)).
Qed.

(** X9: a boolean variable is taken into account exactly when its value is
    one of the six spellings of true or the six spellings of false that
    [strconv.ParseBool] knows; any other value leaves the flag alone. *)
Theorem fromEnvBool_tokens (env : gmap string string) (key : string) (b : bool) :
  fromEnvBool env key = Ok b <->
  exists val, env !! computeEnvName key = Some val /\
              val ∈ (if b then strconv.true_tokens else strconv.false_tokens).
Proof.
  rewrite fromEnvBool_Ok. split; intros (val & Hval & Hb); exists val;
    (split; [assumption|]); now apply ParseBool_Ok.
Qed.

(** X10: what [%d] prints, [fromEnvInt] reads back: a variable set to the
    decimal text of an integer that fits [int] yields that integer, and the
    text of one that does not fit is refused with a range error. *)
Theorem fromEnvInt_fmt_d_roundtrip (env : gmap string string) (key : string) (n : Z) :
  (strconv.minInt <= n <= strconv.maxInt ->
   strconv.Atoi (fmt_d n) = Ok n /\
   fromEnvInt (<[computeEnvName key := fmt_d n]> env) key = Ok n) /\
  (~ strconv.minInt <= n <= strconv.maxInt ->
   fromEnvInt (<[computeEnvName key := fmt_d n]> env) key =
     Err (NumError "Atoi" (fmt_d n) ErrRange)).
Proof.
  unfold fromEnvInt. rewrite fromEnv_insert, fmt_d_nonempty, Atoi_fmt_d.
  destruct (Z.leb_spec strconv.minInt n), (Z.leb_spec n strconv.maxInt); simpl;
    split; intros; try lia; auto.
Qed.

(** *** The report, continued *)

Lemma last_byte_app (x s : string) (prev : option ascii) :
  last_byte (x +:+ s) prev = last_byte s (last_byte x prev).
Proof.
  revert prev. induction x as [|c x IH]; intros prev; [reflexivity|].
  simpl. apply IH.
Qed.

Lemma append_assoc3 (x y z : string) : (x +:+ y) +:+ z = x +:+ (y +:+ z).
Proof.
  induction x as [|c x IH]; [reflexivity|].
  change (String c ((x +:+ y) +:+ z) = String c (x +:+ (y +:+ z))). now f_equal.
Qed.

Lemma log_entry_prefix (x s : string) :
  ends_with_newline x = false ->
  log_entry (x +:+ s) = x +:+ log_entry s.
Proof.
  intros Hx. unfold log_entry, ends_with_newline in *. rewrite last_byte_app.
  destruct s as [|c r]; cbn [last_byte].
  - destruct (last_byte x None) as [c|]; [rewrite Hx|]; apply append_assoc3.
  - destruct (last_byte r (Some c)) as [c'|]; [|apply append_assoc3].
    destruct (Ascii.eqb c' "010"); [reflexivity|apply append_assoc3].
Qed.

Lemma append_newline_cancel (a b : string) : a +:+ newline = b +:+ newline -> a = b.
Proof.
  revert b. induction a as [|c a IH]; intros [|c' b]; simpl; try reflexivity.
  - intros [= _ H]. now destruct b.
  - intros [= _ H]. now destruct a.
  - intros [= -> H]. f_equal. now apply IH.
Qed.

Lemma log_entry_inj (a b : string) :
  log_entry a = log_entry b -> ends_with_newline a = ends_with_newline b -> a = b.
Proof.
  unfold log_entry. intros H Hends. rewrite <- Hends in H.
  destruct (ends_with_newline a); [assumption|now apply append_newline_cancel].
Qed.

Lemma fmt_t_no_newline (b : bool) : ends_with_newline (fmt_t b) = false.
Proof. now destruct b. Qed.

Lemma fmt_t_inj (a b : bool) : fmt_t a = fmt_t b -> a = b.
Proof. now destruct a, b. Qed.

Lemma last_byte_of_uint (d : Decimal.uint) (c : ascii) :
  Ascii.eqb c "010" = false ->
  exists c', last_byte (NilEmpty.string_of_uint d) (Some c) = Some c' /\
             Ascii.eqb c' "010" = false.
Proof.
  revert c. induction d as [|d IH|d IH|d IH|d IH|d IH|d IH|d IH|d IH|d IH|d IH];
    intros c Hc; cbn [NilEmpty.string_of_uint last_byte];
    [now exists c|..]; now apply IH.
Qed.

Lemma fmt_d_no_newline (n : Z) : ends_with_newline (fmt_d n) = false.
Proof.
  unfold ends_with_newline, fmt_d.
  destruct n as [|p|p]; [reflexivity|..]; simpl Z.to_int;
    pose proof (DecimalPos.Unsigned.to_uint_nonnil p) as Hnil;
    unfold NilZero.string_of_int, NilZero.string_of_uint;
    destruct (Pos.to_uint p) as [|d|d|d|d|d|d|d|d|d|d]; try (now destruct Hnil);
    cbn [NilEmpty.string_of_uint last_byte];
    match goal with
    | |- context [last_byte (NilEmpty.string_of_uint d) (Some ?c)] =>
        destruct (last_byte_of_uint d c eq_refl) as (c' & -> & ->)
    end; reflexivity.
Qed.

(** X12: what [Print] makes the logger write tells apart configurations that
    differ in sensor logging flag, interval or MQTT switch, and tells apart
    placements and metrics addresses up to one final newline (the logger ends
    a message with a newline only when it has none); with MQTT disabled it does
    not depend on the MQTT sub-configuration. *)
Theorem Print_distinguishes (c1 c2 : Config) :
  (Print c1 = Print c2 ->
   log_entry (Placement c1) = log_entry (Placement c2) /\
   LogSensor c1 = LogSensor c2 /\
   log_entry (MetricConfig c1) = log_entry (MetricConfig c2) /\
   IntervalSecs c1 = IntervalSecs c2 /\
   DisableMqtt c1 = DisableMqtt c2) /\
  (forall a b : string,
      log_entry a = log_entry b -> ends_with_newline a = ends_with_newline b -> a = b) /\
  (DisableMqtt c1 = true ->
   forall mqtt : MqttConfig, Print (set_Mqtt mqtt c1) = Print c1).
Proof.
  split; [|split].
  - unfold Print. cbn [app]. intros H.
    injection H as Hp Hl Hm Hi Hd _.
    rewrite !log_entry_prefix in Hp, Hl, Hm, Hi, Hd by reflexivity.
    apply append_cancel_l in Hp, Hl, Hm, Hi, Hd.
    apply log_entry_inj in Hl, Hi, Hd;
      rewrite ?fmt_t_no_newline, ?fmt_d_no_newline; try reflexivity.
    apply fmt_t_inj in Hl, Hd. apply fmt_d_inj in Hi. auto.
  - apply log_entry_inj.
  - intros Hd mqtt. unfold Print; simpl. now rewrite Hd.
Qed.

End config.

(** ** The properties on concrete inputs *)

Lemma Validate_first_failing_rule_witness :
  Validate demoSensorValidate demoMqttValidate (demoConf "" 0 false "") =
    Some (errorString "empty placement provided") /\
  Validate demoSensorValidate demoMqttValidate (demoConf "garage" 500 false "") =
    Some (errorString "invalid interval: mut not be greater than 300 but is 500").
Proof.
  split.
  - apply (Validate_first_failing_rule demoSensorValidate demoMqttValidate
             (demoConf "" 0 false "")).
    reflexivity.
  - apply (proj1 (proj2 (Validate_first_failing_rule demoSensorValidate demoMqttValidate
                           (demoConf "garage" 500 false "")))
             [RulePlacement; RuleIntervalLower] RuleIntervalUpper
             [RuleSensor; RuleMqttDisabled; RuleMqtt]).
    + reflexivity.
    + repeat constructor.
    + reflexivity.
Defined.

Lemma Validate_interval_bounds_witness :
  Validate demoSensorValidate demoMqttValidate (demoConf "garage" 29 false "broker") =
    Some (errorString "invalid interval: must not be lower than 30 but is 29") /\
  Validate demoSensorValidate demoMqttValidate (demoConf "garage" 30 false "broker") = None /\
  Validate demoSensorValidate demoMqttValidate (demoConf "garage" 300 false "broker") = None /\
  Validate demoSensorValidate demoMqttValidate (demoConf "garage" 301 false "broker") =
    Some (errorString "invalid interval: mut not be greater than 300 but is 301") /\
  Validate demoSensorValidate demoMqttValidate (demoConf "" 29 false "broker") <> None.
Proof.
  split; [|split; [|split; [|split]]].
  - apply (Validate_interval_bounds demoSensorValidate demoMqttValidate
             (demoConf "garage" 29 false "broker")); [discriminate | simpl; lia].
  - apply (Validate_interval_bounds demoSensorValidate demoMqttValidate
             (demoConf "garage" 30 false "broker"));
      [discriminate | simpl; lia | reflexivity | right; reflexivity].
  - apply (Validate_interval_bounds demoSensorValidate demoMqttValidate
             (demoConf "garage" 300 false "broker"));
      [discriminate | simpl; lia | reflexivity | right; reflexivity].
  - apply (Validate_interval_bounds demoSensorValidate demoMqttValidate
             (demoConf "garage" 301 false "broker")); [discriminate | simpl; lia].
  - apply (Validate_interval_bounds demoSensorValidate demoMqttValidate
             (demoConf "" 29 false "broker")). left. simpl. lia.
Defined.

Lemma Validate_mqtt_disabled_witness :
  demoMqttValidate (Mqtt (demoConf "garage" 60 true "")) =
    Some (errorString "empty mqtt host provided") /\
  Validate demoSensorValidate demoMqttValidate (demoConf "garage" 60 true "") = None.
Proof.
  split; [reflexivity|].
  apply (Validate_mqtt_disabled demoSensorValidate demoMqttValidate
           (demoConf "garage" 60 true ""));
    [reflexivity | discriminate | simpl; lia | reflexivity].
Defined.

Lemma overrideFromEnv_per_field_witness :
  let conf' := overrideFromEnv demoSensorFromEnv demoEnv (demoConf "garage" 60 true "") in
  IntervalSecs conf' = 120 /\ DisableMqtt conf' = true /\ Placement conf' = "garage".
Proof.
  destruct (overrideFromEnv_per_field demoSensorFromEnv demoEnv
              (demoConf "garage" 60 true "")) as ((Hp & _ & Hi & Hd & _) & _).
  cbv zeta in *. rewrite Hp, Hi, Hd. vm_compute. repeat split.
Defined.

Lemma fromEnv_empty_is_undefined_witness :
  fromEnv (<[computeEnvName "METRICS_ADDR" := ""]> demoEnv) "METRICS_ADDR" =
    Err (errorString "not defined") /\
  Placement (DefaultConfig demoDefaultSensor) = "".
Proof.
  destruct (fromEnv_empty_is_undefined demoDefaultSensor demoSensorFromEnv
              (<["GOBOT_BME280_PLACEMENT" := ""]> demoEnv) "METRICS_ADDR"
              (DefaultConfig demoDefaultSensor))
    as (_ & _ & _ & Hplacement & _).
  split.
  - apply (fromEnv_empty_is_undefined demoDefaultSensor demoSensorFromEnv demoEnv
             "METRICS_ADDR" (DefaultConfig demoDefaultSensor)).
  - apply Hplacement. now vm_compute.
Defined.

Lemma ConfigFromEnv_nothing_set_witness :
  ConfigFromEnv demoDefaultSensor demoSensorFromEnv foreignEnv =
    DefaultConfig demoDefaultSensor.
Proof.
  apply (ConfigFromEnv_nothing_set demoDefaultSensor demoSensorFromEnv foreignEnv).
  - apply Forall_forall. unfold recognized_keys.
    repeat (apply Forall_cons; split; [now vm_compute|]). apply Forall_nil_2.
  - now vm_compute.
Defined.

Lemma overrideFromEnv_frame_witness :
  own_fields (overrideFromEnv demoSensorFromEnv foreignEnv (demoConf "garage" 60 true "")) =
    own_fields (overrideFromEnv demoSensorFromEnv ∅ (demoConf "garage" 60 true "")).
Proof.
  apply (overrideFromEnv_frame demoDefaultSensor demoSensorFromEnv foreignEnv
           (demoConf "garage" 60 true "")).
  apply Forall_forall. unfold recognized_keys.
  repeat (apply Forall_cons; split; [now vm_compute|]). apply Forall_nil_2.
Defined.

Lemma computeEnvName_upper_witness :
  computeEnvName "PlaceMent" = computeEnvName "placement".
Proof.
  apply (computeEnvName_upper ∅ "placement"); reflexivity.
Defined.

Lemma Read_layers_witness :
  Read demoDefaultSensor demoSensorFromEnv demoReadFile demoDecode demoEnv
       "/etc/gobot/garage.json" =
    (Some {| Placement := "garage"; MetricConfig := ":9192"; IntervalSecs := 120;
             LogSensor := false; DisableMqtt := false;
             Mqtt := {| Host := ""; Topic := ""; ClientKeyFile := "";
                        ClientCertFile := ""; ServerCaFile := "" |};
             Sensor := demoDefaultSensor |}, None).
Proof.
  destruct (Read_layers demoDefaultSensor demoSensorFromEnv demoReadFile demoDecode
              demoEnv "/etc/gobot/garage.json" garage_json (demoDecode garage_json).1)
    as (_ & _ & _ & Hread & _).
  rewrite Hread; [now vm_compute | discriminate | reflexivity | reflexivity].
Defined.

Lemma ReadJsonConfig_failure_reported_witness :
  ReadJsonConfig demoDefaultSensor demoReadFile demoDecode "/etc/gobot/missing.json" =
    (None, Some (errorString
       "could not read config from file: open /etc/gobot/missing.json: no such file or directory")) /\
  ReadJsonConfig demoDefaultSensor demoReadFile demoDecode "/etc/gobot/truncated.json" =
    (Some (DefaultConfig demoDefaultSensor),
     Some (JsonError "unexpected end of JSON input")) /\
  usable (ReadJsonConfig demoDefaultSensor demoReadFile demoDecode
            "/etc/gobot/mistyped.json") = None.
Proof.
  split; [|split].
  - apply (ReadJsonConfig_failure_reported demoDefaultSensor demoReadFile demoDecode
             "/etc/gobot/missing.json"). reflexivity.
  - apply (proj1 (proj2 (ReadJsonConfig_failure_reported demoDefaultSensor demoReadFile
                           demoDecode "/etc/gobot/truncated.json"))
             "{" emptyFields (JsonError "unexpected end of JSON input"));
      reflexivity.
  - apply (proj1 (proj2 (ReadJsonConfig_failure_reported demoDefaultSensor demoReadFile
                           demoDecode "/etc/gobot/mistyped.json"))
             mistyped_json (demoDecode mistyped_json).1
             (JsonError
                "json: cannot unmarshal string into Go struct field Config.interval_s of type int"));
      reflexivity.
Defined.

(** ** The further properties on concrete inputs *)

Lemma Validate_accepts_iff_witness :
  Validate demoSensorValidate demoMqttValidate (demoConf "garage" 60 false "broker") = None.
Proof.
  apply (Validate_accepts_iff demoSensorValidate demoMqttValidate
           (demoConf "garage" 60 false "broker")).
  split; [discriminate|split; [simpl; lia|split; [reflexivity|right; reflexivity]]].
Defined.

Lemma Validate_ignores_metrics_and_logging_witness :
  Validate demoSensorValidate demoMqttValidate
    (set_Mqtt {| Host := ""; Topic := ""; ClientKeyFile := ""; ClientCertFile := "cert.pem";
                 ServerCaFile := "" |} (demoConf "garage" 10 true "broker")) =
  Validate demoSensorValidate demoMqttValidate (demoConf "garage" 10 true "broker").
Proof.
  apply (Validate_ignores_metrics_and_logging demoSensorValidate demoMqttValidate
           (demoConf "garage" 10 true "broker") "" false).
  reflexivity.
Defined.

Lemma Validate_interval_error_identifies_value_witness :
  IntervalSecs (demoConf "garage" 301 false "broker") =
  IntervalSecs (demoConf "attic" 301 true "").
Proof.
  apply (Validate_interval_error_identifies_value demoSensorValidate demoMqttValidate
           (demoConf "garage" 301 false "broker") (demoConf "attic" 301 true ""));
    [discriminate | discriminate | simpl; lia | simpl; lia | reflexivity].
Defined.

Lemma Validate_ConfigFromEnv_needs_placement_witness :
  exists val, atticEnv !! "GOBOT_BME280_PLACEMENT" = Some val /\ val <> "" /\
              Placement (ConfigFromEnv demoDefaultSensor demoSensorFromEnv atticEnv) = val.
Proof.
  apply (Validate_ConfigFromEnv_needs_placement demoDefaultSensor demoSensorFromEnv
           demoSensorValidate demoMqttValidate atticEnv).
  vm_compute. reflexivity.
Defined.

Lemma Validate_ReadJsonConfig_needs_placement_witness :
  exists content jf val,
    atticReadFile "/etc/gobot/attic.json" = inl content /\
    atticDecode content = (jf, None) /\ jPlacement jf = Some val /\ val <> "" /\
    Placement (store jf (DefaultConfig demoDefaultSensor)) = val.
Proof.
  destruct (Validate_ReadJsonConfig_needs_placement demoDefaultSensor
              demoSensorValidate demoMqttValidate atticReadFile atticDecode
              "/etc/gobot/attic.json"
              (store (atticDecode attic_json).1 (DefaultConfig demoDefaultSensor)))
    as (content & jf & val & Hread & Hdecode & Hval & Hne & Hplacement);
    [reflexivity | reflexivity |].
  exists content, jf, val. repeat split; try assumption.
  injection Hread as <-. vm_compute in Hdecode. injection Hdecode as <-.
  vm_compute in Hval. injection Hval as <-. reflexivity.
Defined.

Lemma overrideFromEnv_idempotent_witness :
  overrideFromEnv demoSensorFromEnv demoEnv
    (overrideFromEnv demoSensorFromEnv demoEnv (demoConf "garage" 60 true "")) =
  overrideFromEnv demoSensorFromEnv demoEnv (demoConf "garage" 60 true "").
Proof.
  apply (overrideFromEnv_idempotent demoSensorFromEnv demoEnv (demoConf "garage" 60 true "")).
  vm_compute. reflexivity.
Defined.

Lemma overrideFromEnv_set_variable_witness :
  field_of_key "METRICS_ADDR"
    (overrideFromEnv demoSensorFromEnv (<[computeEnvName "METRICS_ADDR" := ":8080"]> demoEnv)
       (demoConf "garage" 60 true "")) = Some (VString ":8080") /\
  field_of_key "INTERVAL_S"
    (overrideFromEnv demoSensorFromEnv (<[computeEnvName "METRICS_ADDR" := ":8080"]> demoEnv)
       (demoConf "garage" 60 true "")) =
  field_of_key "INTERVAL_S"
    (overrideFromEnv demoSensorFromEnv demoEnv (demoConf "garage" 60 true "")).
Proof.
  destruct (overrideFromEnv_set_variable demoSensorFromEnv demoEnv "METRICS_ADDR" ":8080"
              KString (demoConf "garage" 60 true "") eq_refl) as [Hset Hothers].
  split; [exact Hset|]. apply Hothers. discriminate.
Defined.

Lemma computeEnvName_inj_upto_case_witness :
  strings.ToUpper "Mqtt_Host" = strings.ToUpper "MQTT_HOST".
Proof.
  apply (computeEnvName_inj_upto_case "Mqtt_Host" "MQTT_HOST"); reflexivity.
Defined.

Lemma fromEnvBool_tokens_witness :
  fromEnvBool (<["GOBOT_BME280_LOG_SENSOR" := "T"]> demoEnv) "LOG_SENSOR" = Ok true.
Proof.
  apply (fromEnvBool_tokens (<["GOBOT_BME280_LOG_SENSOR" := "T"]> demoEnv)
           "LOG_SENSOR" true).
  exists "T". split; [reflexivity|]. unfold strconv.true_tokens.
  repeat first [apply list_elem_of_here | apply list_elem_of_further].
Defined.

Lemma fromEnvInt_fmt_d_roundtrip_witness :
  strconv.Atoi (fmt_d 60) = Ok 60 /\
  fromEnvInt (<[computeEnvName "INTERVAL_S" := fmt_d 60]> demoEnv) "INTERVAL_S" = Ok 60.
Proof.
  apply (fromEnvInt_fmt_d_roundtrip demoEnv "INTERVAL_S" 60).
  unfold strconv.minInt, strconv.maxInt, strconv.intSize. simpl. lia.
Defined.

Lemma ReadJsonConfig_result_shape_witness :
  (ReadJsonConfig demoDefaultSensor demoReadFile demoDecode "/etc/gobot/missing.json").1
    = None.
Proof.
  apply (ReadJsonConfig_result_shape demoDefaultSensor demoReadFile demoDecode
           "/etc/gobot/missing.json").
  eexists. reflexivity.
Defined.

Lemma Print_distinguishes_witness :
  log_entry (Placement (demoConf "garage" 60 true "broker")) =
    log_entry (Placement (demoConf ("garage" +:+ newline) 60 true "")) /\
  LogSensor (demoConf "garage" 60 true "broker") =
    LogSensor (demoConf ("garage" +:+ newline) 60 true "") /\
  log_entry (MetricConfig (demoConf "garage" 60 true "broker")) =
    log_entry (MetricConfig (demoConf ("garage" +:+ newline) 60 true "")) /\
  IntervalSecs (demoConf "garage" 60 true "broker") =
    IntervalSecs (demoConf ("garage" +:+ newline) 60 true "") /\
  DisableMqtt (demoConf "garage" 60 true "broker") =
    DisableMqtt (demoConf ("garage" +:+ newline) 60 true "").
Proof.
  apply (Print_distinguishes demoSensorPrint demoMqttPrint
           (demoConf "garage" 60 true "broker")
           (demoConf ("garage" +:+ newline) 60 true "")).
  reflexivity.
Defined.
